(** * Particle-simulation reducer: [script.py]

    A shallow embedding of the loader, the particle validator, the
    reduction and [main] of [script.py], and the properties of its
    specification.

    The values are the ones [json.load] returns: [None], [bool], [int],
    [float], [str], [list] and [dict].  A Python exception raised inside a
    [try] block is an outcome of its own ([Raise]), so that the
    [except Exception] handlers of the source can be written as they are.

    Floating-point numbers are binary64, Rocq's primitive floats.  Python
    integers are unbounded: numpy stores them as int64 or uint64 where they
    fit, and keeps them as Python objects, with Python's arithmetic, where
    one of them does not.  Console output is left out, except for the
    formatting that can raise while producing it. *)

From Stdlib Require Import ZArith List String Ascii Bool Lia.
From Stdlib Require Floats.PrimFloat Floats.SpecFloat Floats.FloatOps.
Import ListNotations.

Local Open Scope string_scope.
Local Open Scope list_scope.

Set Warnings "-register-all".

Definition float : Set := PrimFloat.float.

(** ** Values of a parsed JSON document *)

Inductive json : Type :=
| JNull
| JBool (b : bool)
| JInt (z : Z)
| JFloat (f : float)
| JStr (s : string)
| JList (l : list json)
| JDict (kv : list (string * json)).

(** ** Python exceptions *)

Module Py.

(** The outcome of an expression or statement inside a [try] block. *)
Inductive exc (A : Type) : Type :=
| Ret (a : A)
| Raise.
Arguments Ret {A} a.
Arguments Raise {A}.

Definition bind {A B : Type} (c : exc A) (k : A -> exc B) : exc B :=
  match c with
  | Ret a => k a
  | Raise => Raise
  end.

(** [[f x for x in l]]: evaluated left to right, left at the first exception. *)
Fixpoint comprehension {A B : Type} (f : A -> exc B) (l : list A) : exc (list B) :=
  match l with
  | [] => Ret []
  | x :: l' =>
      bind (f x) (fun y => bind (comprehension f l') (fun ys => Ret (y :: ys)))
  end.

(** Lookup of a key in a [dict], kept as the list of its items. *)
Fixpoint lookup (k : string) (kv : list (string * json)) : option json :=
  match kv with
  | [] => None
  | (k', v) :: kv' => if String.eqb k k' then Some v else lookup k kv'
  end.

(** [d.get(k, default)]: only a [dict] has the method; on any other value
    the attribute access raises [AttributeError]. *)
Definition get (d : json) (k : string) (default : json) : exc json :=
  match d with
  | JDict kv =>
      match lookup k kv with
      | Some v => Ret v
      | None => Ret default
      end
  | _ => Raise
  end.

(** [d[k]] with a string key: [KeyError] on a missing key, [TypeError] on
    a value that is not a [dict]. *)
Definition getitem (d : json) (k : string) : exc json :=
  match d with
  | JDict kv =>
      match lookup k kv with
      | Some v => Ret v
      | None => Raise
      end
  | _ => Raise
  end.

(** [isinstance(v, (int, float))]; [bool] is a subclass of [int]. *)
Definition isinstance_int_float (v : json) : bool :=
  match v with
  | JInt _ | JFloat _ | JBool _ => true
  | _ => false
  end.

(** [isinstance(v, dict)] and [isinstance(v, list)]. *)
Definition isinstance_dict (v : json) : bool :=
  match v with
  | JDict _ => true
  | _ => false
  end.

Definition isinstance_list (v : json) : bool :=
  match v with
  | JList _ => true
  | _ => false
  end.

(** Truth value of an object, as [not v] and [if v] test it. *)
Definition truthy (v : json) : bool :=
  match v with
  | JNull => false
  | JBool b => b
  | JInt z => negb (Z.eqb z 0)
  | JFloat f => negb (PrimFloat.eqb f PrimFloat.zero)
  | JStr s => negb (String.eqb s "")
  | JList l => match l with [] => false | _ => true end
  | JDict kv => match kv with [] => false | _ => true end
  end.

(** The characters of a string, each a string of length one. *)
Fixpoint chars (s : string) : list json :=
  match s with
  | EmptyString => []
  | String c s' => JStr (String c EmptyString) :: chars s'
  end.

(** [for p in v]: a list yields its elements, a dict its keys, a string
    its characters; the other values are not iterable ([TypeError]). *)
Definition iter (v : json) : exc (list json) :=
  match v with
  | JList l => Ret l
  | JDict kv => Ret (map (fun item => JStr (fst item)) kv)
  | JStr s => Ret (chars s)
  | _ => Raise
  end.

End Py.

Import Py.

Notation "x <- c ;; k" := (Py.bind c (fun x => k))
  (at level 61, c at next level, right associativity).

(** ** [validate_particle_data] *)

Definition XYZ : list string := ["X"; "Y"; "Z"].

(** [all(isinstance(d.get(k), (int, float)) for k in ks)]: the generator is
    consumed until the first false test. *)
Fixpoint all_numeric (d : json) (ks : list string) : exc bool :=
  match ks with
  | [] => Ret true
  | k :: ks' =>
      v <- Py.get d k JNull ;;
      if isinstance_int_float v then all_numeric d ks' else Ret false
  end.

(** The body of the [try] block. *)
Definition validate_particle_try (particle : json) : exc bool :=
  pos <- Py.get particle "Position" (JDict []) ;;
  vel <- Py.get particle "Velocity" (JDict []) ;;
  pos_ok <- all_numeric pos XYZ ;;
  if negb pos_ok then Ret false else
  vel_ok <- all_numeric vel XYZ ;;
  if negb vel_ok then Ret false else
  temperature <- Py.get particle "Temperature" JNull ;;
  if negb (isinstance_int_float temperature) then Ret false else
  Ret true.

Definition validate_particle_data (particle : json) : bool :=
  match validate_particle_try particle with
  | Ret b => b
  | Raise => false
  end.

(** ** The fields of a particle, as the specification names them *)

(** The value at a path of keys: present only when every step is a [dict]
    holding the next key. *)
Fixpoint field_at (v : json) (path : list string) : option json :=
  match path with
  | [] => Some v
  | k :: path' =>
      match v with
      | JDict kv =>
          match Py.lookup k kv with
          | Some v' => field_at v' path'
          | None => None
          end
      | _ => None
      end
  end.

(** A numeric value: a Python [int] or [float].  The JSON booleans are
    Python [bool]s, which are [int]s, and count as such. *)
Inductive numeric : json -> Prop :=
| numeric_int (z : Z) : numeric (JInt z)
| numeric_float (f : float) : numeric (JFloat f)
| numeric_bool (b : bool) : numeric (JBool b).

(** A field is present and numeric. *)
Definition present_numeric (particle : json) (path : list string) : Prop :=
  exists v, field_at particle path = Some v /\ numeric v.

(** A field is missing: some key on its path is not there. *)
Definition missing (particle : json) (path : list string) : Prop :=
  field_at particle path = None.

Definition checked_fields : list (list string) :=
  [ ["Position"; "X"]; ["Position"; "Y"]; ["Position"; "Z"];
    ["Velocity"; "X"]; ["Velocity"; "Y"]; ["Velocity"; "Z"];
    ["Temperature"] ].

(** ** The parts of numpy the reduction uses *)


Module Np.

(** Conversion of a Python [int] to binary64, rounding to nearest even;
    an integer beyond the largest finite float becomes infinite. *)
Definition float_of_Z (z : Z) : float :=
  FloatOps.SF2Prim (SpecFloat.binary_normalize FloatOps.prec FloatOps.emax z 0 false).

Definition float_of_bool (b : bool) : float :=
  if b then PrimFloat.one else PrimFloat.zero.

Definition vec3 : Type := float * float * float.

(** The dtype numpy finds for a Python [int]: int64, uint64 above it, and
    object beyond the 64 bits of both. *)
Definition in_int64 (z : Z) : bool :=
  Z.leb (- 2 ^ 63) z && Z.ltb z (2 ^ 63).

Definition in_uint64 (z : Z) : bool :=
  Z.leb (2 ^ 63) z && Z.ltb z (2 ^ 64).

Definition forces_object (v : json) : bool :=
  match v with
  | JInt z => negb (in_int64 z || in_uint64 z)
  | _ => false
  end.

Definition row_forces_object (r : json * json * json) : bool :=
  let '(x, y, z) := r in
  forces_object x || forces_object y || forces_object z.

(** *** Arrays of a numeric dtype *)

(** One scalar of [np.array([[x, y, z], ...])] as [mean] reads it.  An
    array of Python numbers within 64 bits has dtype bool, int64, uint64 or
    float64, and [mean] accumulates all of them in float64, so every entry
    enters the sum as its binary64 value.  An entry that is not a number
    makes an array of strings or objects, on which [mean] raises. *)
Definition scalar (v : json) : exc float :=
  match v with
  | JInt z => Ret (float_of_Z z)
  | JFloat f => Ret f
  | JBool b => Ret (float_of_bool b)
  | _ => Raise
  end.

Definition row (r : json * json * json) : exc vec3 :=
  let '(x, y, z) := r in
  a <- scalar x ;;
  b <- scalar y ;;
  c <- scalar z ;;
  Ret (a, b, c).

Definition vadd (u v : vec3) : vec3 :=
  let '(a, b, c) := u in
  let '(x, y, z) := v in
  (PrimFloat.add a x, PrimFloat.add b y, PrimFloat.add c z).

Definition vzero : vec3 := (PrimFloat.zero, PrimFloat.zero, PrimFloat.zero).

(** [mean(axis=0)] of a numeric array: [add.reduce] along the first axis
    in float64, one row after the other from 0.0, then [true_divide] by
    the number of rows. *)
Definition mean_axis0_float64 (rows : list (json * json * json)) : exc vec3 :=
  arr <- Py.comprehension row rows ;;
  let '(sx, sy, sz) := fold_left vadd arr vzero in
  let n := float_of_Z (Z.of_nat (List.length arr)) in
  Ret (PrimFloat.div sx n, PrimFloat.div sy n, PrimFloat.div sz n).

(** *** Arrays of dtype object *)

(** The Python numbers an object array holds: an [int] (a [bool] is the
    [int] 1 or 0) or a [float]. *)
Inductive number : Type :=
| PyInt (z : Z)
| PyFloat (f : float).

Definition object_scalar (v : json) : exc number :=
  match v with
  | JInt z => Ret (PyInt z)
  | JBool b => Ret (PyInt (if b then 1 else 0))
  | JFloat f => Ret (PyFloat f)
  | _ => Raise
  end.

(** [float(z)]: [OverflowError] beyond the float range. *)
Definition py_float (z : Z) : exc float :=
  if PrimFloat.is_infinity (float_of_Z z) then Raise else Ret (float_of_Z z).

(** [a + b]: exact on two integers; an integer added to a float is
    converted first. *)
Definition py_add (a b : number) : exc number :=
  match a, b with
  | PyInt x, PyInt y => Ret (PyInt (x + y))
  | PyInt x, PyFloat g => f <- py_float x ;; Ret (PyFloat (PrimFloat.add f g))
  | PyFloat f, PyInt y => g <- py_float y ;; Ret (PyFloat (PrimFloat.add f g))
  | PyFloat f, PyFloat g => Ret (PyFloat (PrimFloat.add f g))
  end.

(** The quotient of two integers, the divisor positive, rounded once to the
    nearest binary64 number. *)
Definition int_quotient (a n : Z) : float :=
  match a with
  | Z0 => PrimFloat.zero
  | _ =>
      let '(m, e, l) :=
        SpecFloat.SFdiv_core_binary FloatOps.prec FloatOps.emax (Z.abs a) 0 n 0 in
      FloatOps.SF2Prim
        (SpecFloat.binary_round_aux FloatOps.prec FloatOps.emax (Z.ltb a 0) m e l)
  end.

(** [a / n] for a positive integer [n]: the true division of two integers
    raises [OverflowError] on a quotient beyond the float range. *)
Definition py_truediv (a : number) (n : Z) : exc float :=
  match a with
  | PyInt x =>
      if PrimFloat.is_infinity (int_quotient x n) then Raise
      else Ret (int_quotient x n)
  | PyFloat f => Ret (PrimFloat.div f (float_of_Z n))
  end.

Definition object_row (r : json * json * json) : exc (number * number * number) :=
  let '(x, y, z) := r in
  a <- object_scalar x ;;
  b <- object_scalar y ;;
  c <- object_scalar z ;;
  Ret (a, b, c).

Definition object_vadd (u v : number * number * number)
  : exc (number * number * number) :=
  let '(a, b, c) := u in
  let '(x, y, z) := v in
  sx <- py_add a x ;;
  sy <- py_add b y ;;
  sz <- py_add c z ;;
  Ret (sx, sy, sz).

(** [add.reduce] along the first axis of an object array: the rows are
    added to the first one, one after the other, with Python's [+]. *)
Fixpoint object_sum (acc : number * number * number)
    (rows : list (number * number * number)) : exc (number * number * number) :=
  match rows with
  | [] => Ret acc
  | r :: rows' => acc' <- object_vadd acc r ;; object_sum acc' rows'
  end.

(** [mean(axis=0)] of an object array: the sums, then Python's [/] by the
    number of rows.  (An array without a row is not of dtype object.) *)
Definition mean_axis0_object (rows : list (json * json * json)) : exc vec3 :=
  arr <- Py.comprehension object_row rows ;;
  match arr with
  | [] => Raise
  | first :: rest =>
      s <- object_sum first rest ;;
      let '(sx, sy, sz) := s in
      let n := Z.of_nat (List.length arr) in
      x <- py_truediv sx n ;;
      y <- py_truediv sy n ;;
      z <- py_truediv sz n ;;
      Ret (x, y, z)
  end.

(** [np.array(rows).mean(axis=0)]: one integer beyond 64 bits anywhere in
    the rows makes the whole array of dtype object. *)
Definition mean_axis0 (rows : list (json * json * json)) : exc vec3 :=
  if existsb row_forces_object rows then mean_axis0_object rows
  else mean_axis0_float64 rows.

(** *** One-dimensional arrays *)

(** A one-dimensional array built from a list of Python objects, by the
    dtype numpy finds for it. *)
Inductive ndarray1 : Type :=
| ArrBool (l : list bool)
| ArrInt64 (l : list Z)
| ArrUInt64 (l : list Z)
| ArrFloat64 (l : list float)
| ArrStr (l : list json)       (* '<U' array: the [str] of these values *)
| ArrObject (l : list json).

Definition is_bool (v : json) : bool :=
  match v with JBool _ => true | _ => false end.
Definition is_bool_or_int (v : json) : bool :=
  match v with JBool _ | JInt _ => true | _ => false end.
Definition is_bool_or_int64 (v : json) : bool :=
  match v with JBool _ => true | JInt z => in_int64 z | _ => false end.
Definition is_bool_or_uint64 (v : json) : bool :=
  match v with JBool _ => true | JInt z => in_uint64 z | _ => false end.
Definition is_str (v : json) : bool :=
  match v with JStr _ => true | _ => false end.
Definition is_none_or_dict (v : json) : bool :=
  match v with JNull | JDict _ => true | _ => false end.

Definition as_bool (v : json) : bool :=
  match v with JBool b => b | _ => false end.
Definition as_int64 (v : json) : Z :=
  match v with JInt z => z | JBool b => if b then 1%Z else 0%Z | _ => 0%Z end.
Definition as_float64 (v : json) : float :=
  match v with
  | JInt z => float_of_Z z
  | JFloat f => f
  | JBool b => float_of_bool b
  | _ => PrimFloat.zero
  end.

(** [np.array(l)] for a list of parsed JSON values.  A nested list is
    either ragged, which numpy (1.24 and later) refuses with [ValueError],
    or regular, which gives a two-dimensional array whose rows refuse the
    [.2f] format applied to them right after; both leave the [try] block,
    which is what [Raise] records.  [None], a dict or an integer beyond 64
    bits forces dtype object, a string without them a string array, and
    numbers alone the least dtype that holds them all: bool, int64 or
    uint64, and float64 for a float or for integers of both int64 and
    uint64. *)
Definition array1 (l : list json) : exc ndarray1 :=
  if existsb Py.isinstance_list l then Raise
  else if existsb is_none_or_dict l || existsb forces_object l then Ret (ArrObject l)
  else if existsb is_str l then Ret (ArrStr l)
  else if forallb is_bool l then Ret (ArrBool (map as_bool l))
  else if forallb is_bool_or_int64 l then Ret (ArrInt64 (map as_int64 l))
  else if forallb is_bool_or_uint64 l then Ret (ArrUInt64 (map as_int64 l))
  else Ret (ArrFloat64 (map as_float64 l)).

Definition len (a : ndarray1) : nat :=
  match a with
  | ArrBool l => List.length l
  | ArrInt64 l => List.length l
  | ArrUInt64 l => List.length l
  | ArrFloat64 l => List.length l
  | ArrStr l => List.length l
  | ArrObject l => List.length l
  end.

End Np.

(** ** Formatting with [.2f] *)

(** [f"{v:.2f}"] for a Python object: numbers only; an [int] is converted
    to [float] first, which raises [OverflowError] beyond the float range. *)
Definition format_2f (v : json) : exc unit :=
  match v with
  | JInt z => if PrimFloat.is_infinity (Np.float_of_Z z) then Raise else Ret tt
  | JFloat _ => Ret tt
  | JBool _ => Ret tt
  | _ => Raise
  end.

(** [f"{a[i]:.2f}"] for an entry of a one-dimensional array: numpy's
    numeric scalars format as the Python number they hold, a [np.str_]
    refuses the format, and an object array hands out the object itself. *)
Definition format_item_2f (a : Np.ndarray1) (i : nat) : exc unit :=
  match a with
  | Np.ArrBool _ | Np.ArrInt64 _ | Np.ArrUInt64 _ | Np.ArrFloat64 _ => Ret tt
  | Np.ArrStr _ => Raise
  | Np.ArrObject l => format_2f (nth i l JNull)
  end.

(** ** [load_simulation_data] *)

Section Loader.

(** [open(filename, 'r')] with the file's text, and [json.load]: both are
    the interpreter's, and both may raise. *)
Variable open_read : string -> exc string.
Variable json_load : string -> exc json.

Definition load_simulation_try (filename : string) : exc (list json) :=
  text <- open_read filename ;;
  data <- json_load text ;;
  match data with
  | JList l =>
      if Nat.eqb (List.length l) 0 then Raise (* ValueError *) else Ret l
  | _ => Raise (* ValueError *)
  end.

Definition load_simulation_data (filename : string) : option (list json) :=
  match load_simulation_try filename with
  | Ret data => Some data
  | Raise => None
  end.

End Loader.

(** ** [analyze_flow_field] *)

(** The dictionary the reduction returns. *)
Record ReducedSeries : Type := mkSeries {
  times : Np.ndarray1;
  velocities : list Np.vec3;
  positions : list Np.vec3
}.

(** The three lists the loop appends to. *)
Record accum : Type := mkAccum {
  acc_times : list json;
  acc_velocities : list Np.vec3;
  acc_positions : list Np.vec3
}.

Definition accum_empty : accum := mkAccum [] [] [].

(** [[p[vector]['X'], p[vector]['Y'], p[vector]['Z']]] *)
Definition vector_row (vector : string) (p : json) : exc (json * json * json) :=
  x <- (d <- Py.getitem p vector ;; Py.getitem d "X") ;;
  y <- (d <- Py.getitem p vector ;; Py.getitem d "Y") ;;
  z <- (d <- Py.getitem p vector ;; Py.getitem d "Z") ;;
  Ret (x, y, z).

(** One turn of [for i, snapshot in enumerate(data)], [n] being [len(data)];
    a [continue] leaves the three lists as they are.  Of the output written
    on the way only what can raise is kept: the [.2f] format of the
    timestamp in the report on the first and the last snapshot. *)
Definition loop_body (n i : nat) (snapshot : json) (st : accum) : exc accum :=
  if negb (Py.isinstance_dict snapshot) then Ret st else
  timestamp <- Py.get snapshot "Timestamp" (JInt 0) ;;
  particles <- Py.get snapshot "Particles" (JList []) ;;
  if negb (Py.truthy particles) then Ret st else
  ps <- Py.iter particles ;;
  let valid_particles := filter validate_particle_data ps in
  if negb (Py.truthy (JList valid_particles)) then Ret st else
  positions_array <- Py.comprehension (vector_row "Position") valid_particles ;;
  velocities_array <- Py.comprehension (vector_row "Velocity") valid_particles ;;
  avg_pos <- Np.mean_axis0 positions_array ;;
  avg_vel <- Np.mean_axis0 velocities_array ;;
  let st' := mkAccum (acc_times st ++ [timestamp])
                     (acc_velocities st ++ [avg_vel])
                     (acc_positions st ++ [avg_pos]) in
  _ <- (if Nat.eqb i 0 || Nat.eqb i (n - 1) then format_2f timestamp else Ret tt) ;;
  Ret st'.

Fixpoint loop (n i : nat) (data : list json) (st : accum) : exc accum :=
  match data with
  | [] => Ret st
  | snapshot :: rest =>
      st' <- loop_body n i snapshot st ;;
      loop n (S i) rest st'
  end.

(** What follows the loop: the check on the number of time points, the
    conversion to arrays, and the summary, which formats the first and the
    last entry of [times]. *)
Definition after_loop (st : accum) : exc (option ReducedSeries) :=
  if Nat.ltb (List.length (acc_times st)) 2 then Ret None else
  times_array <- Np.array1 (acc_times st) ;;
  _ <- format_item_2f times_array 0 ;;
  _ <- format_item_2f times_array (Np.len times_array - 1) ;;
  Ret (Some (mkSeries times_array (acc_velocities st) (acc_positions st))).

Definition analyze_flow_try (data : list json) : exc (option ReducedSeries) :=
  st <- loop (List.length data) 0 data accum_empty ;;
  after_loop st.

Definition analyze_flow_field (data : list json) : option ReducedSeries :=
  if negb (Py.truthy (JList data)) || Nat.ltb (List.length data) 2 then None
  else
    match analyze_flow_try data with
    | Ret result => result
    | Raise => None
    end.

(** ** The reduction, as the specification words it *)

Definition snapshot_timestamp (s : json) : json :=
  match field_at s ["Timestamp"] with
  | Some t => t
  | None => JInt 0
  end.

(** The particles a snapshot lists: its [Particles] sequence. *)
Definition listed_particles (s : json) : list json :=
  match field_at s ["Particles"] with
  | Some (JList ps) => ps
  | _ => []
  end.

(** One coordinate of a particle, as the number it is: a boolean is the
    integer 1 or 0. *)
Definition coordinate_number (vector axis : string) (p : json) : Np.number :=
  match field_at p [vector; axis] with
  | Some (JInt z) => Np.PyInt z
  | Some (JBool b) => Np.PyInt (if b then 1 else 0)
  | Some (JFloat f) => Np.PyFloat f
  | _ => Np.PyInt 0
  end.

Definition float_of_number (x : Np.number) : float :=
  match x with
  | Np.PyInt z => Np.float_of_Z z
  | Np.PyFloat f => f
  end.

(** One coordinate of a particle, as a binary64 number. *)
Definition coordinate (vector axis : string) (p : json) : float :=
  float_of_number (coordinate_number vector axis p).

(** Sum divided by count, in binary64. *)
Definition arithmetic_mean (xs : list float) : float :=
  PrimFloat.div (fold_left PrimFloat.add xs PrimFloat.zero)
                (Np.float_of_Z (Z.of_nat (List.length xs))).

(** The sum of two numbers: exact on two integers, in binary64 otherwise. *)
Definition add_numbers (a b : Np.number) : Np.number :=
  match a, b with
  | Np.PyInt x, Np.PyInt y => Np.PyInt (x + y)
  | _, _ => Np.PyFloat (PrimFloat.add (float_of_number a) (float_of_number b))
  end.

(** A number divided by a count: an integer is divided exactly and the
    quotient rounded once. *)
Definition divide_number (a : Np.number) (n : Z) : float :=
  match a with
  | Np.PyInt x => Np.int_quotient x n
  | Np.PyFloat f => PrimFloat.div f (Np.float_of_Z n)
  end.

(** Sum divided by count, the integers summed exactly. *)
Definition exact_mean (xs : list Np.number) : float :=
  match xs with
  | [] => PrimFloat.nan
  | x :: rest =>
      divide_number (fold_left add_numbers rest x) (Z.of_nat (List.length xs))
  end.

(** Some coordinate of the vector, over the particles, is an integer
    beyond 64 bits. *)
Definition beyond_64_bits (x : Np.number) : bool :=
  match x with
  | Np.PyInt z => negb (Np.in_int64 z || Np.in_uint64 z)
  | Np.PyFloat _ => false
  end.

Definition vector_beyond_64_bits (vector : string) (ps : list json) : bool :=
  existsb (fun p => beyond_64_bits (coordinate_number vector "X" p) ||
                    beyond_64_bits (coordinate_number vector "Y" p) ||
                    beyond_64_bits (coordinate_number vector "Z" p)) ps.

(** The coordinate-wise mean of one vector field over a list of particles:
    sum divided by count per axis, in binary64, and with the integers
    summed exactly when one of them is beyond 64 bits. *)
Definition mean_vector (vector : string) (ps : list json) : Np.vec3 :=
  if vector_beyond_64_bits vector ps then
    (exact_mean (map (coordinate_number vector "X") ps),
     exact_mean (map (coordinate_number vector "Y") ps),
     exact_mean (map (coordinate_number vector "Z") ps))
  else
    (arithmetic_mean (map (coordinate vector "X") ps),
     arithmetic_mean (map (coordinate vector "Y") ps),
     arithmetic_mean (map (coordinate vector "Z") ps)).

(** The triple a snapshot yields: none when no listed particle is valid. *)
Definition snapshot_mean (s : json) : option (json * Np.vec3 * Np.vec3) :=
  match filter validate_particle_data (listed_particles s) with
  | [] => None
  | valid =>
      Some (snapshot_timestamp s, mean_vector "Position" valid, mean_vector "Velocity" valid)
  end.

Definition yields_mean (s : json) : bool :=
  match snapshot_mean s with
  | Some _ => true
  | None => false
  end.

(** The triples of the snapshots that yield a mean, in the order of the input. *)
Definition reduced_entries (data : list json) : list (json * Np.vec3 * Np.vec3) :=
  flat_map (fun s => match snapshot_mean s with Some e => [e] | None => [] end) data.

Definition entry_time (e : json * Np.vec3 * Np.vec3) : json := fst (fst e).
Definition entry_position (e : json * Np.vec3 * Np.vec3) : Np.vec3 := snd (fst e).
Definition entry_velocity (e : json * Np.vec3 * Np.vec3) : Np.vec3 := snd e.

(** The mean position and velocity over the valid particles of a snapshot. *)
Definition snapshot_position (s : json) : Np.vec3 :=
  mean_vector "Position" (filter validate_particle_data (listed_particles s)).

Definition snapshot_velocity (s : json) : Np.vec3 :=
  mean_vector "Velocity" (filter validate_particle_data (listed_particles s)).

(** The value under a coordinate of a particle, and the row of its three. *)
Definition raw_coordinate (vector axis : string) (p : json) : json :=
  match field_at p [vector; axis] with
  | Some v => v
  | None => JNull
  end.

Definition raw_row (vector : string) (p : json) : json * json * json :=
  (raw_coordinate vector "X" p, raw_coordinate vector "Y" p,
   raw_coordinate vector "Z" p).

(** The three lists after a snapshot that yields the triple [e], or none. *)
Definition record_entry (st : accum) (e : option (json * Np.vec3 * Np.vec3)) : accum :=
  match e with
  | Some (t, p, v) =>
      mkAccum (acc_times st ++ [t]) (acc_velocities st ++ [v]) (acc_positions st ++ [p])
  | None => st
  end.

(** What a turn of the loop does once the valid particles are known and
    not empty. *)
Definition turn_on_valid (n i : nat) (timestamp : json) (valid : list json)
    (st : accum) : exc accum :=
  avg_pos <- Np.mean_axis0 (map (raw_row "Position") valid) ;;
  avg_vel <- Np.mean_axis0 (map (raw_row "Velocity") valid) ;;
  _ <- (if Nat.eqb i 0 || Nat.eqb i (n - 1) then format_2f timestamp else Ret tt) ;;
  Ret (mkAccum (acc_times st ++ [timestamp])
               (acc_velocities st ++ [avg_vel])
               (acc_positions st ++ [avg_pos])).

(** ** Sample documents *)

Definition particle (px py pz vx vy vz temperature : json) : json :=
  JDict [ ("Position", JDict [("X", px); ("Y", py); ("Z", pz)]);
          ("Velocity", JDict [("X", vx); ("Y", vy); ("Z", vz)]);
          ("Temperature", temperature) ].

Definition snapshot (timestamp : json) (particles : list json) : json :=
  JDict [ ("Timestamp", timestamp); ("Particles", JList particles) ].

(** The two snapshots of the specification's scenario. *)
Definition scenario : list json :=
  [ snapshot (JInt 0)
      [particle (JInt 0) (JInt 0) (JInt 0) (JInt 1) (JInt 0) (JInt 0) (JInt 300)];
    snapshot (JInt 1)
      [particle (JInt 1) (JInt 0) (JInt 0) (JInt 1) (JInt 0) (JInt 0) (JInt 300)] ].

(** The scenario with the later snapshot first. *)
Definition scenario_reversed : list json := rev scenario.

(** A snapshot whose only particle has a string for a temperature. *)
Definition snapshot_bad_temperature : json :=
  snapshot (JInt 2)
    [particle (JInt 0) (JInt 0) (JInt 0) (JInt 1) (JInt 0) (JInt 0) (JStr "hot")].

(** A particle whose fields are booleans, and a snapshot that lists it
    with two particles of integers and floats. *)
Definition particle_of_bools : json :=
  particle (JBool true) (JBool false) (JBool true)
           (JBool false) (JBool true) (JBool false) (JBool true).

Definition particles_with_bools : list json :=
  [ particle_of_bools;
    particle (JInt 2) (JInt 1) (JBool true) (JInt 4) (JInt 0) (JInt 1) (JInt 300);
    particle (JInt 0) (JInt 2) (JInt 4) (JInt 2) (JBool true) (JInt 2) (JBool false) ].

Definition scenario_bools : list json :=
  [ snapshot (JInt 0) particles_with_bools;
    snapshot (JInt 1)
      [particle (JInt 1) (JInt 0) (JInt 0) (JInt 1) (JInt 0) (JInt 0) (JInt 300)] ].

(** Three particles whose Y coordinates are 2^53, 1 and 1, the X of the
    first beyond 64 bits, in the first of two snapshots. *)
Definition particles_beyond_64_bits : list json :=
  [ particle (JInt (2 ^ 70)) (JInt (2 ^ 53)) (JInt 0) (JInt 1) (JInt 0) (JInt 0) (JInt 300);
    particle (JInt 0) (JInt 1) (JInt 0) (JInt 1) (JInt 0) (JInt 0) (JInt 300);
    particle (JInt 0) (JInt 1) (JInt 0) (JInt 1) (JInt 0) (JInt 0) (JInt 300) ].

Definition scenario_beyond_64_bits : list json :=
  [ snapshot (JInt 0) particles_beyond_64_bits;
    snapshot (JInt 1)
      [particle (JInt 1) (JInt 0) (JInt 0) (JInt 1) (JInt 0) (JInt 0) (JInt 300)] ].

(** ** The plotting functions and [main] *)

(** The four charts. *)
Inductive plot : Type :=
| VelocityComponents
| VelocityMagnitude
| Trajectory
| PositionComponents.

Section Main.

(** What the charts are drawn in and saved to: matplotlib's state and the
    file system. *)
Variable world : Type.

Variable open_read : string -> exc string.
Variable json_load : string -> exc json.

(** [os.path.splitext(path)[0]] *)
Variable splitext_root : string -> string.

(** The matplotlib calls of the [try] block of a plotting function, from
    [plt.figure] to [plt.savefig(output_path)] and [plt.close]: they may
    raise, and leave the world as far as they came. *)
Variable draw : plot -> ReducedSeries -> string -> world -> exc unit * world.

(** Each plotting function catches every exception of its [try] block and
    returns [None] either way. *)
Definition create_velocity_components_plot
    (data : ReducedSeries) (output_path : string) (w : world) : world :=
  snd (draw VelocityComponents data output_path w).

Definition create_velocity_magnitude_plot
    (data : ReducedSeries) (output_path : string) (w : world) : world :=
  snd (draw VelocityMagnitude data output_path w).

(** The trajectory returns before drawing on fewer than two positions. *)
Definition create_trajectory_plot
    (data : ReducedSeries) (output_path : string) (w : world) : world :=
  if Nat.ltb (List.length (positions data)) 2 then w
  else snd (draw Trajectory data output_path w).

Definition create_position_components_plot
    (data : ReducedSeries) (output_path : string) (w : world) : world :=
  snd (draw PositionComponents data output_path w).

(** [main] on [sys.argv]: the exit status of the process, 1 at each
    [sys.exit(1)] and 0 when [main] returns, and the world it leaves. *)
Definition main (argv : list string) (w : world) : nat * world :=
  if negb (Nat.eqb (List.length argv) 2) then (1, w) else
  let input_file := nth 1 argv "" in
  let base_path := splitext_root input_file in
  match load_simulation_data open_read json_load input_file with
  | None => (1, w)
  | Some raw_data =>
      if negb (Py.truthy (JList raw_data)) then (1, w) else
      match analyze_flow_field raw_data with
      | None => (1, w)
      | Some processed_data =>
          let w1 := create_velocity_components_plot processed_data
                      (base_path ++ "_velocity.png") w in
          let w2 := create_velocity_magnitude_plot processed_data
                      (base_path ++ "_magnitude.png") w1 in
          let w3 := create_trajectory_plot processed_data
                      (base_path ++ "_trajectory.png") w2 in
          let w4 := create_position_components_plot processed_data
                      (base_path ++ "_position.png") w3 in
          (0, w4)
      end
  end.

End Main.

(** ** Inputs the reduction does not raise on *)

(** What [for p in particles] accepts. *)
Definition iterable (v : json) : bool :=
  match v with
  | JList _ | JDict _ | JStr _ => true
  | _ => false
  end.

(** A timestamp the [.2f] format accepts. *)
Definition formattable (v : json) : bool :=
  match format_2f v with
  | Ret _ => true
  | Raise => false
  end.

(** A snapshot is tolerated when it is not a dict, or when its particles
    are empty or can be iterated over and, if it yields a mean, its
    timestamp can be formatted and no coordinate of its valid particles is
    an integer beyond 64 bits. *)
Definition tolerated (s : json) : bool :=
  match Py.get s "Particles" (JList []) with
  | Ret particles =>
      (negb (Py.truthy particles) || iterable particles) &&
      (negb (yields_mean s) ||
       formattable (snapshot_timestamp s) &&
       negb (vector_beyond_64_bits "Position"
               (filter validate_particle_data (listed_particles s))) &&
       negb (vector_beyond_64_bits "Velocity"
               (filter validate_particle_data (listed_particles s))))
  | Raise => true
  end.

(** ** What the reduction reads of its input *)

(** The six coordinates of a particle, where present. *)
Definition vectors (p : json) : list (option json) :=
  [ field_at p ["Position"; "X"]; field_at p ["Position"; "Y"];
    field_at p ["Position"; "Z"]; field_at p ["Velocity"; "X"];
    field_at p ["Velocity"; "Y"]; field_at p ["Velocity"; "Z"] ].

(** Two snapshots with the same timestamp whose valid particles have, one
    by one, the same coordinates. *)
Definition same_reduction_input (s s' : json) : Prop :=
  s = s' \/
  (Py.get s "Timestamp" (JInt 0) = Py.get s' "Timestamp" (JInt 0) /\
   exists ps ps',
     Py.get s "Particles" (JList []) = Ret (JList ps) /\
     Py.get s' "Particles" (JList []) = Ret (JList ps') /\
     map vectors (filter validate_particle_data ps) =
     map vectors (filter validate_particle_data ps')).

(** A world that records the charts drawn in it, and a [draw] that fails
    after recording. *)
Definition drawn : Type := list (plot * string).

Definition draw_failing (p : plot) (data : ReducedSeries) (path : string) (w : drawn)
  : exc unit * drawn :=
  (Raise, w ++ [(p, path)]).

(** A file system with one document, the scenario, and its parser. *)
Definition one_file (filename : string) : exc string :=
  if String.eqb filename "run.json" then Ret "scenario" else Raise.

Definition parse_scenario (text : string) : exc json :=
  if String.eqb text "scenario" then Ret (JList scenario) else Raise.

Definition root_of_run (path : string) : string :=
  if String.eqb path "run.json" then "run" else path.

(** * Properties *)

(** ** The exception monad *)

Lemma bind_Ret_inv {A B : Type} (c : exc A) (k : A -> exc B) (b : B) :
  Py.bind c k = Ret b -> exists a, c = Ret a /\ k a = Ret b.
Proof.
  destruct c as [a|]; simpl; intros H.
  - exists a. split; [reflexivity | exact H].
  - discriminate H.
Qed.

(** ** Validation *)

Lemma isinstance_int_float_numeric (v : json) :
  isinstance_int_float v = true <-> numeric v.
Proof.
  split.
  - destruct v; simpl; intros H; try discriminate H; constructor.
  - intros H. destruct H; reflexivity.
Qed.

Lemma all_numeric_true (d : json) (ks : list string) :
  all_numeric d ks = Ret true <->
  (forall k, In k ks -> present_numeric d [k]).
Proof.
  unfold present_numeric.
  induction ks as [|k ks IH]; simpl.
  - split; [intros _ k [] | reflexivity].
  - destruct d; simpl;
      try (split; [discriminate |
                   intros H; destruct (H k (or_introl eq_refl)) as [v [Hv _]];
                   discriminate Hv]).
    destruct (Py.lookup k kv) as [v|] eqn:Hk; simpl.
    + destruct (isinstance_int_float v) eqn:Hn.
      * simpl in IH. rewrite IH. split.
        -- intros H k' [<-|Hin].
           ++ rewrite Hk. exists v. split; [reflexivity|].
              now apply isinstance_int_float_numeric.
           ++ now apply H.
        -- intros H k' Hin. apply H. now right.
      * split; [discriminate|].
        intros H. destruct (H k (or_introl eq_refl)) as [v' [Hv' Hnum]].
        rewrite Hk in Hv'. injection Hv' as <-.
        apply isinstance_int_float_numeric in Hnum. congruence.
    + split; [discriminate|].
      intros H. destruct (H k (or_introl eq_refl)) as [v' [Hv' _]].
      rewrite Hk in Hv'. discriminate Hv'.
Qed.

(** What the [try] block of the validator computes on a dict. *)
Lemma validate_dict_true (kv : list (string * json)) :
  validate_particle_data (JDict kv) = true <->
  all_numeric (match Py.lookup "Position" kv with Some v => v | None => JDict [] end) XYZ
    = Ret true /\
  all_numeric (match Py.lookup "Velocity" kv with Some v => v | None => JDict [] end) XYZ
    = Ret true /\
  isinstance_int_float
    (match Py.lookup "Temperature" kv with Some v => v | None => JNull end) = true.
Proof.
  unfold validate_particle_data, validate_particle_try, Py.get.
  destruct (Py.lookup "Position" kv) as [pos|];
    destruct (Py.lookup "Velocity" kv) as [vel|];
    destruct (Py.lookup "Temperature" kv) as [t|]; cbn [Py.bind];
    repeat match goal with
    | |- context [all_numeric ?d XYZ] =>
        destruct (all_numeric d XYZ) as [[|]|]; cbn [Py.bind negb]
    | |- context [isinstance_int_float ?v] =>
        destruct (isinstance_int_float v); cbn [negb]
    end;
    intuition congruence.
Qed.

Lemma present_numeric_nested (kv : list (string * json)) (vector axis : string) :
  present_numeric (JDict kv) [vector; axis] <->
  present_numeric
    (match Py.lookup vector kv with Some v => v | None => JDict [] end) [axis].
Proof.
  unfold present_numeric. simpl.
  destruct (Py.lookup vector kv) as [d|]; simpl; [reflexivity|].
  split; intros [v [H _]]; discriminate H.
Qed.

Lemma present_numeric_top (kv : list (string * json)) (k : string) :
  present_numeric (JDict kv) [k] <->
  isinstance_int_float
    (match Py.lookup k kv with Some v => v | None => JNull end) = true.
Proof.
  unfold present_numeric. simpl.
  destruct (Py.lookup k kv) as [v|].
  - rewrite isinstance_int_float_numeric. split.
    + intros [v' [H Hn]]. now injection H as <-.
    + intros Hn. now exists v.
  - split; [intros [v [H _]]; discriminate H | discriminate].
Qed.

Lemma validate_true_fields (p : json) :
  validate_particle_data p = true <->
  (forall path, In path checked_fields -> present_numeric p path).
Proof.
  destruct p as [| | | | |l|kv];
    try (split;
         [ discriminate
         | intros H; destruct (H ["Temperature"]) as [v [Hv _]];
           [ simpl; tauto | discriminate Hv ] ]).
  rewrite validate_dict_true, !all_numeric_true.
  setoid_rewrite <- present_numeric_nested.
  rewrite <- present_numeric_top.
  unfold checked_fields, XYZ. simpl. split.
  - intros [Hp [Hv Ht]] path Hin.
    repeat (destruct Hin as [<-|Hin]; [auto 6|]). destruct Hin.
  - intros H. repeat split.
    + intros k Hk. repeat (destruct Hk as [<-|Hk]; [apply H; tauto|]). destruct Hk.
    + intros k Hk. repeat (destruct Hk as [<-|Hk]; [apply H; tauto|]). destruct Hk.
    + apply H; tauto.
Qed.

(** C2: the validity predicate holds exactly when the six position and
    velocity fields and the temperature are present and numeric (a Python
    [int] or [float], [bool] included); a particle that misses one of the
    seven fields is not valid. *)
Theorem validate_particle_data_spec (p : json) :
  (validate_particle_data p = true <->
   forall path, In path checked_fields -> present_numeric p path) /\
  (forall path, In path checked_fields -> missing p path ->
   validate_particle_data p = false).
Proof.
  split.
  - apply validate_true_fields.
  - intros path Hin Hmiss.
    destruct (validate_particle_data p) eqn:Hv; [|reflexivity].
    destruct (proj1 (validate_true_fields p) Hv path Hin) as [v [Hsome _]].
    unfold missing in Hmiss. congruence.
Qed.

(** ** Rows and means of valid particles *)

Lemma getitem_field (p : json) (a b : string) (v : json) :
  field_at p [a; b] = Some v ->
  (d <- Py.getitem p a ;; Py.getitem d b) = Ret v.
Proof.
  destruct p as [| | | | |l|kv]; simpl; try discriminate.
  destruct (Py.lookup a kv) as [d|]; simpl; [|discriminate].
  destruct d as [| | | | |l|kv']; simpl; try discriminate.
  destruct (Py.lookup b kv') as [w|]; simpl; [|discriminate].
  intros H. injection H as <-. reflexivity.
Qed.

Lemma present_numeric_raw (vector axis : string) (p : json) :
  present_numeric p [vector; axis] ->
  field_at p [vector; axis] = Some (raw_coordinate vector axis p) /\
  numeric (raw_coordinate vector axis p).
Proof.
  intros [v [Hv Hn]]. unfold raw_coordinate. rewrite Hv. split; [reflexivity|exact Hn].
Qed.

Lemma valid_vector_axes (p : json) (vector : string) :
  validate_particle_data p = true ->
  vector = "Position" \/ vector = "Velocity" ->
  forall axis, In axis XYZ -> present_numeric p [vector; axis].
Proof.
  intros Hv Hvec axis Hax.
  apply (proj1 (validate_true_fields p) Hv).
  unfold checked_fields, XYZ in *. simpl in *.
  destruct Hvec as [-> | ->];
    repeat (destruct Hax as [<-|Hax]; [tauto|]); destruct Hax.
Qed.

(** The three coordinates of a vector of a valid particle are numbers. *)
Lemma valid_raw_numeric (vector : string) (p : json) :
  validate_particle_data p = true ->
  vector = "Position" \/ vector = "Velocity" ->
  numeric (raw_coordinate vector "X" p) /\
  numeric (raw_coordinate vector "Y" p) /\
  numeric (raw_coordinate vector "Z" p).
Proof.
  intros Hv Hvec.
  pose proof (valid_vector_axes p vector Hv Hvec) as H.
  repeat split; apply present_numeric_raw; apply H; simpl; tauto.
Qed.

(** The row the source reads off a valid particle. *)
Lemma valid_vector_row (vector : string) (p : json) :
  validate_particle_data p = true ->
  vector = "Position" \/ vector = "Velocity" ->
  vector_row vector p = Ret (raw_row vector p).
Proof.
  intros Hv Hvec.
  pose proof (valid_vector_axes p vector Hv Hvec) as H.
  destruct (present_numeric_raw vector "X" p) as [Hx _]; [apply H; simpl; tauto|].
  destruct (present_numeric_raw vector "Y" p) as [Hy _]; [apply H; simpl; tauto|].
  destruct (present_numeric_raw vector "Z" p) as [Hz _]; [apply H; simpl; tauto|].
  unfold vector_row, raw_row.
  rewrite (getitem_field _ _ _ _ Hx), (getitem_field _ _ _ _ Hy),
    (getitem_field _ _ _ _ Hz).
  reflexivity.
Qed.

Lemma valid_rows (vector : string) (ps : list json) :
  vector = "Position" \/ vector = "Velocity" ->
  forallb validate_particle_data ps = true ->
  Py.comprehension (vector_row vector) ps = Ret (map (raw_row vector) ps).
Proof.
  intros Hvec. induction ps as [|p ps IH]; simpl; intros Hall; [reflexivity|].
  apply andb_true_iff in Hall as [Hp Hps].
  rewrite (valid_vector_row vector p Hp Hvec), (IH Hps). reflexivity.
Qed.

(** A number under a coordinate, as the two kinds of array read it. *)
Lemma scalar_coordinate (vector axis : string) (p : json) :
  numeric (raw_coordinate vector axis p) ->
  Np.scalar (raw_coordinate vector axis p) = Ret (coordinate vector axis p) /\
  Np.object_scalar (raw_coordinate vector axis p) =
    Ret (coordinate_number vector axis p).
Proof.
  unfold raw_coordinate, coordinate, coordinate_number.
  destruct (field_at p [vector; axis]) as [v|]; intros Hn.
  - destruct Hn as [z|f|[|]]; split; reflexivity.
  - inversion Hn.
Qed.

Lemma forces_object_coordinate (vector axis : string) (p : json) :
  Np.forces_object (raw_coordinate vector axis p) =
  beyond_64_bits (coordinate_number vector axis p).
Proof.
  unfold raw_coordinate, coordinate_number.
  destruct (field_at p [vector; axis]) as [[|[|]|z|f|s|l|kv]|]; reflexivity.
Qed.

Lemma rows_force_object (vector : string) (ps : list json) :
  existsb Np.row_forces_object (map (raw_row vector) ps) =
  vector_beyond_64_bits vector ps.
Proof.
  unfold vector_beyond_64_bits.
  induction ps as [|p ps IH]; simpl; [reflexivity|].
  rewrite IH, !forces_object_coordinate. reflexivity.
Qed.

Lemma numeric_rows (vector : string) (ps : list json) :
  vector = "Position" \/ vector = "Velocity" ->
  forallb validate_particle_data ps = true ->
  Py.comprehension Np.row (map (raw_row vector) ps) =
    Ret (map (fun p => (coordinate vector "X" p, coordinate vector "Y" p,
                        coordinate vector "Z" p)) ps) /\
  Py.comprehension Np.object_row (map (raw_row vector) ps) =
    Ret (map (fun p => (coordinate_number vector "X" p, coordinate_number vector "Y" p,
                        coordinate_number vector "Z" p)) ps).
Proof.
  intros Hvec. induction ps as [|p ps IH]; simpl; intros Hall.
  - split; reflexivity.
  - apply andb_true_iff in Hall as [Hp Hps].
    destruct (IH Hps) as [Hf Ho].
    destruct (valid_raw_numeric vector p Hp Hvec) as [Nx [Ny Nz]].
    destruct (scalar_coordinate vector "X" p Nx) as [Fx Ox].
    destruct (scalar_coordinate vector "Y" p Ny) as [Fy Oy].
    destruct (scalar_coordinate vector "Z" p Nz) as [Fz Oz].
    unfold Np.row, Np.object_row, raw_row.
    rewrite Fx, Fy, Fz, Ox, Oy, Oz. cbn [Py.bind].
    unfold Np.row, raw_row in Hf. unfold Np.object_row, raw_row in Ho.
    rewrite Hf, Ho. split; reflexivity.
Qed.

(** The column sums of a list of rows are the sums of its columns. *)
Lemma fold_vadd_columns (arr : list Np.vec3) (a b c : float) :
  fold_left Np.vadd arr (a, b, c) =
  (fold_left PrimFloat.add (map (fun r => fst (fst r)) arr) a,
   fold_left PrimFloat.add (map (fun r => snd (fst r)) arr) b,
   fold_left PrimFloat.add (map (fun r => snd r) arr) c).
Proof.
  revert a b c.
  induction arr as [|[[x y] z] arr IH]; intros a b c; simpl.
  - reflexivity.
  - apply IH.
Qed.

Lemma py_add_value (a b c : Np.number) :
  Np.py_add a b = Ret c -> c = add_numbers a b.
Proof.
  destruct a as [x|f], b as [y|g]; unfold Np.py_add, Np.py_float; simpl.
  - intros H. injection H as <-. reflexivity.
  - destruct (PrimFloat.is_infinity (Np.float_of_Z x)); simpl; intros H;
      [discriminate H | injection H as <-; reflexivity].
  - destruct (PrimFloat.is_infinity (Np.float_of_Z y)); simpl; intros H;
      [discriminate H | injection H as <-; reflexivity].
  - intros H. injection H as <-. reflexivity.
Qed.

Lemma py_truediv_value (a : Np.number) (n : Z) (q : float) :
  Np.py_truediv a n = Ret q -> q = divide_number a n.
Proof.
  destruct a as [x|f]; unfold Np.py_truediv; simpl.
  - destruct (PrimFloat.is_infinity (Np.int_quotient x n)); intros H;
      [discriminate H | injection H as <-; reflexivity].
  - intros H. injection H as <-. reflexivity.
Qed.

(** The sums of an object array that could be added up are, column by
    column, the sums of its numbers. *)
Lemma object_sum_columns (rows : list (Np.number * Np.number * Np.number)) :
  forall a b c s,
    Np.object_sum (a, b, c) rows = Ret s ->
    s = (fold_left add_numbers (map (fun r => fst (fst r)) rows) a,
         fold_left add_numbers (map (fun r => snd (fst r)) rows) b,
         fold_left add_numbers (map (fun r => snd r) rows) c).
Proof.
  induction rows as [|[[x y] z] rows IH]; simpl; intros a b c s H.
  - injection H as <-. reflexivity.
  - apply bind_Ret_inv in H as [[[a' b'] c'] [Hadd Hrest]].
    unfold Np.object_vadd in Hadd.
    apply bind_Ret_inv in Hadd as [sx [Hx Hadd]].
    apply bind_Ret_inv in Hadd as [sy [Hy Hadd]].
    apply bind_Ret_inv in Hadd as [sz [Hz Hadd]].
    injection Hadd as <- <- <-.
    apply py_add_value in Hx, Hy, Hz. subst sx sy sz.
    apply (IH _ _ _ _ Hrest).
Qed.

(** The mean the source computes over valid particles, where it does not
    raise, is the mean of the specification. *)
Lemma mean_axis0_value (vector : string) (ps : list json) (v : Np.vec3) :
  vector = "Position" \/ vector = "Velocity" ->
  forallb validate_particle_data ps = true ->
  Np.mean_axis0 (map (raw_row vector) ps) = Ret v ->
  v = mean_vector vector ps.
Proof.
  intros Hvec Hall. unfold Np.mean_axis0, mean_vector.
  rewrite rows_force_object.
  destruct (numeric_rows vector ps Hvec Hall) as [Hf Ho].
  destruct (vector_beyond_64_bits vector ps).
  - unfold Np.mean_axis0_object. rewrite Ho. cbn [Py.bind].
    destruct ps as [|p ps]; [discriminate|].
    cbn [map]. intros H.
    apply bind_Ret_inv in H as [[[sx sy] sz] [Hsum H]].
    apply object_sum_columns in Hsum. injection Hsum as -> -> ->.
    apply bind_Ret_inv in H as [x [Hx H]].
    apply bind_Ret_inv in H as [y [Hy H]].
    apply bind_Ret_inv in H as [z [Hz H]].
    injection H as <-.
    apply py_truediv_value in Hx, Hy, Hz. subst x y z.
    unfold exact_mean. cbn [map List.length].
    rewrite !map_map, !length_map. reflexivity.
  - unfold Np.mean_axis0_float64. rewrite Hf. cbn [Py.bind].
    unfold Np.vzero. rewrite fold_vadd_columns.
    rewrite !map_map, !length_map. simpl.
    unfold arithmetic_mean. rewrite !length_map.
    intros H. injection H as <-. reflexivity.
Qed.

(** Within 64 bits the mean does not raise. *)
Lemma mean_axis0_within (vector : string) (ps : list json) :
  vector = "Position" \/ vector = "Velocity" ->
  forallb validate_particle_data ps = true ->
  vector_beyond_64_bits vector ps = false ->
  Np.mean_axis0 (map (raw_row vector) ps) = Ret (mean_vector vector ps).
Proof.
  intros Hvec Hall Hwithin.
  destruct (Np.mean_axis0 (map (raw_row vector) ps)) as [v|] eqn:Hmean.
  - f_equal. apply (mean_axis0_value vector ps v Hvec Hall Hmean).
  - exfalso. revert Hmean. unfold Np.mean_axis0.
    rewrite rows_force_object, Hwithin. unfold Np.mean_axis0_float64.
    destruct (numeric_rows vector ps Hvec Hall) as [Hf _]. rewrite Hf.
    cbn [Py.bind]. destruct (fold_left Np.vadd _ Np.vzero) as [[sx sy] sz].
    discriminate.
Qed.
(** ** The loop *)

Lemma forallb_filter {A : Type} (f : A -> bool) (l : list A) :
  forallb f (filter f l) = true.
Proof.
  apply forallb_forall. intros x Hx. apply filter_In in Hx. tauto.
Qed.

Lemma filter_all {A : Type} (f : A -> bool) (l : list A) :
  forallb f l = true -> filter f l = l.
Proof.
  induction l as [|x l IH]; simpl; intros H; [reflexivity|].
  apply andb_true_iff in H as [Hx Hl]. rewrite Hx, IH by exact Hl. reflexivity.
Qed.

Lemma filter_none {A : Type} (f : A -> bool) (l : list A) :
  (forall x, In x l -> f x = false) -> filter f l = [].
Proof.
  induction l as [|x l IH]; simpl; intros H; [reflexivity|].
  rewrite (H x (or_introl eq_refl)). apply IH. intros y Hy. apply H. now right.
Qed.

(** Iterating over a dict or a string yields strings, none of them valid. *)
Lemma no_valid_key (kv : list (string * json)) :
  filter validate_particle_data (map (fun item => JStr (fst item)) kv) = [].
Proof.
  apply filter_none. intros x Hx. apply in_map_iff in Hx as [item [<- _]].
  reflexivity.
Qed.

Lemma no_valid_char (s : string) :
  filter validate_particle_data (Py.chars s) = [].
Proof.
  apply filter_none. induction s as [|c s IH]; simpl; intros x Hx.
  - destruct Hx.
  - destruct Hx as [<-|Hx]; [reflexivity | now apply IH].
Qed.

Lemma get_timestamp (s t : json) :
  Py.get s "Timestamp" (JInt 0) = Ret t -> snapshot_timestamp s = t.
Proof.
  unfold snapshot_timestamp.
  destruct s as [| | | | |l|kv]; simpl; try discriminate.
  destruct (Py.lookup "Timestamp" kv); intros H; injection H as <-; reflexivity.
Qed.

Lemma get_particles (s particles : json) :
  Py.get s "Particles" (JList []) = Ret particles ->
  listed_particles s = match particles with JList ps => ps | _ => [] end.
Proof.
  unfold listed_particles.
  destruct s as [| | | | |l|kv]; simpl; try discriminate.
  destruct (Py.lookup "Particles" kv); intros H; injection H as <-; reflexivity.
Qed.

(** Whatever [Particles] is, the valid ones among what the loop iterates
    over are the valid ones of the listed sequence. *)
Lemma iter_valid_particles (particles : json) (ps : list json) :
  Py.iter particles = Ret ps ->
  filter validate_particle_data ps =
  filter validate_particle_data (match particles with JList l => l | _ => [] end).
Proof.
  destruct particles as [|b|z|f|str|l|kv]; simpl; intros H;
    try discriminate H; injection H as <-.
  - apply no_valid_char.
  - reflexivity.
  - apply no_valid_key.
Qed.

Lemma falsy_no_particles (particles : json) :
  Py.truthy particles = false ->
  match particles with JList ps => ps | _ => [] end = [].
Proof.
  destruct particles as [|b|z|f|str|[|p l]|kv]; simpl; intros H;
    try reflexivity; discriminate H.
Qed.

(** One turn of the loop that does not raise records the triple of its
    snapshot, or nothing when the snapshot yields none. *)
Lemma get_dict (s : json) (k : string) (d v : json) :
  Py.get s k d = Ret v -> Py.isinstance_dict s = true.
Proof. destruct s; simpl; intros H; try discriminate H; reflexivity. Qed.

Lemma get_Raise (s : json) (k : string) (d : json) :
  Py.get s k d = Raise -> Py.isinstance_dict s = false.
Proof.
  destruct s; simpl; intros H; try reflexivity.
  destruct (Py.lookup k kv); discriminate H.
Qed.

Lemma get_same_dict (s : json) (k k' : string) (d d' v : json) :
  Py.get s k d = Ret v -> exists v', Py.get s k' d' = Ret v'.
Proof.
  destruct s; simpl; intros H; try discriminate H.
  destruct (Py.lookup k' kv); eexists; reflexivity.
Qed.


Lemma snapshot_mean_filter (s : json) :
  snapshot_mean s =
  match filter validate_particle_data (listed_particles s) with
  | [] => None
  | _ :: _ =>
      Some (snapshot_timestamp s, snapshot_position s, snapshot_velocity s)
  end.
Proof.
  unfold snapshot_mean, snapshot_position, snapshot_velocity.
  destruct (filter validate_particle_data (listed_particles s)); reflexivity.
Qed.

(** The turn of a dict: it raises on particles that cannot be iterated
    over, and goes on with the valid ones among the listed particles. *)
Lemma loop_body_dict (n i : nat) (s particles : json) (st : accum) :
  Py.get s "Particles" (JList []) = Ret particles ->
  loop_body n i s st =
  if negb (Py.truthy particles) then Ret st
  else
    _ <- Py.iter particles ;;
    match filter validate_particle_data (listed_particles s) with
    | [] => Ret st
    | _ :: _ =>
        turn_on_valid n i (snapshot_timestamp s)
          (filter validate_particle_data (listed_particles s)) st
    end.
Proof.
  intros Hparts. unfold loop_body.
  rewrite (get_dict _ _ _ _ Hparts). cbn [negb].
  destruct (get_same_dict s "Particles" "Timestamp" _ (JInt 0) _ Hparts) as [t Ht].
  rewrite Ht, Hparts. cbn [Py.bind].
  rewrite (get_particles _ _ Hparts), (get_timestamp _ _ Ht).
  destruct (Py.truthy particles); cbn [negb]; [|reflexivity].
  destruct (Py.iter particles) as [ps|] eqn:Hiter; cbn [Py.bind]; [|reflexivity].
  rewrite (iter_valid_particles _ _ Hiter).
  pose proof (forallb_filter validate_particle_data
                (match particles with JList l => l | _ => [] end)) as Hall.
  destruct (filter validate_particle_data
              (match particles with JList l => l | _ => [] end)) as [|q valid];
    [reflexivity|].
  cbn [Py.truthy negb]. unfold turn_on_valid.
  rewrite (valid_rows "Position" _ (or_introl eq_refl) Hall),
    (valid_rows "Velocity" _ (or_intror eq_refl) Hall).
  reflexivity.
Qed.

Lemma loop_body_not_dict (n i : nat) (s : json) (st : accum) :
  Py.isinstance_dict s = false ->
  loop_body n i s st = Ret st /\ snapshot_mean s = None.
Proof.
  intros H. unfold loop_body. rewrite H. split; [reflexivity|].
  destruct s; try discriminate H; reflexivity.
Qed.

(** A turn on valid particles that does not raise records their means. *)
Lemma turn_on_valid_entry (n i : nat) (t : json) (valid : list json)
    (st st' : accum) :
  forallb validate_particle_data valid = true ->
  turn_on_valid n i t valid st = Ret st' ->
  st' = record_entry st
          (Some (t, mean_vector "Position" valid, mean_vector "Velocity" valid)).
Proof.
  intros Hall H. unfold turn_on_valid in H.
  apply bind_Ret_inv in H as [avg_pos [Hpos H]].
  apply bind_Ret_inv in H as [avg_vel [Hvel H]].
  apply bind_Ret_inv in H as [_ [_ H]].
  apply (mean_axis0_value "Position" _ _ (or_introl eq_refl) Hall) in Hpos.
  apply (mean_axis0_value "Velocity" _ _ (or_intror eq_refl) Hall) in Hvel.
  subst avg_pos avg_vel. injection H as <-. reflexivity.
Qed.

(** One turn of the loop that does not raise records the triple of its
    snapshot, or nothing when the snapshot yields none. *)
Lemma loop_body_entry (n i : nat) (s : json) (st st' : accum) :
  loop_body n i s st = Ret st' ->
  st' = record_entry st (snapshot_mean s).
Proof.
  destruct (Py.get s "Particles" (JList [])) as [particles|] eqn:Hparts.
  - rewrite (loop_body_dict _ _ _ _ _ Hparts).
    unfold snapshot_mean.
    destruct (Py.truthy particles) eqn:Htruthy; cbn [negb].
    + intros H. apply bind_Ret_inv in H as [ps [_ H]].
      pose proof (forallb_filter validate_particle_data (listed_particles s)) as Hall.
      destruct (filter validate_particle_data (listed_particles s)) as [|q valid].
      * injection H as <-. reflexivity.
      * apply (turn_on_valid_entry _ _ _ _ _ _ Hall H).
    + intros H. injection H as <-.
      rewrite (get_particles _ _ Hparts), (falsy_no_particles _ Htruthy).
      reflexivity.
  - apply get_Raise in Hparts.
    destruct (loop_body_not_dict n i s st Hparts) as [-> ->].
    intros H. injection H as <-. reflexivity.
Qed.


Lemma record_entry_times (st : accum) (e : option (json * Np.vec3 * Np.vec3)) :
  acc_times (record_entry st e) =
    acc_times st ++ map entry_time (match e with Some x => [x] | None => [] end) /\
  acc_positions (record_entry st e) =
    acc_positions st ++ map entry_position (match e with Some x => [x] | None => [] end) /\
  acc_velocities (record_entry st e) =
    acc_velocities st ++ map entry_velocity (match e with Some x => [x] | None => [] end).
Proof.
  destruct e as [[[t p] v]|]; simpl; rewrite ?app_nil_r; repeat split.
Qed.

(** A loop that does not raise appends the triples of the snapshots that
    yield a mean, in the order of the input. *)
Lemma loop_entries (n : nat) (data : list json) :
  forall (i : nat) (st st' : accum),
    loop n i data st = Ret st' ->
    acc_times st' = acc_times st ++ map entry_time (reduced_entries data) /\
    acc_positions st' = acc_positions st ++ map entry_position (reduced_entries data) /\
    acc_velocities st' = acc_velocities st ++ map entry_velocity (reduced_entries data).
Proof.
  induction data as [|s data IH]; simpl; intros i st st' H.
  - injection H as <-. rewrite !app_nil_r. repeat split.
  - apply bind_Ret_inv in H as [st1 [Hbody Hrest]].
    apply loop_body_entry in Hbody. subst st1.
    destruct (IH _ _ _ Hrest) as [Ht [Hp Hv]].
    destruct (record_entry_times st (snapshot_mean s)) as [Et [Ep Ev]].
    rewrite !map_app, !app_assoc, <- Et, <- Ep, <- Ev.
    repeat split; assumption.
Qed.

Lemma array1_len (l : list json) (a : Np.ndarray1) :
  Np.array1 l = Ret a -> Np.len a = List.length l.
Proof.
  unfold Np.array1.
  repeat match goal with
         | |- context [if ?c then _ else _] => destruct c
         end; intros H; try discriminate H; injection H as <-; simpl;
    rewrite ?length_map; reflexivity.
Qed.

(** The shape of every successful reduction. *)
Lemma analyze_flow_field_entries (data : list json) (r : ReducedSeries) :
  analyze_flow_field data = Some r ->
  Np.array1 (map entry_time (reduced_entries data)) = Ret (times r) /\
  positions r = map entry_position (reduced_entries data) /\
  velocities r = map entry_velocity (reduced_entries data) /\
  2 <= List.length (reduced_entries data) /\
  2 <= List.length data.
Proof.
  unfold analyze_flow_field, analyze_flow_try.
  destruct (negb (Py.truthy (JList data)) || Nat.ltb (List.length data) 2) eqn:Hguard;
    [discriminate|].
  apply orb_false_iff in Hguard as [_ Hlen]. apply Nat.ltb_ge in Hlen.
  destruct (loop (List.length data) 0 data accum_empty) as [st|] eqn:Hloop;
    simpl; [|discriminate].
  destruct (loop_entries _ _ _ _ _ Hloop) as [Ht [Hp Hv]]. simpl in Ht, Hp, Hv.
  unfold after_loop.
  destruct (Nat.ltb (List.length (acc_times st)) 2) eqn:Htimes; [discriminate|].
  apply Nat.ltb_ge in Htimes.
  destruct (Np.array1 (acc_times st)) as [a|] eqn:Harr; simpl; [|discriminate].
  destruct (format_item_2f a 0); simpl; [|discriminate].
  destruct (format_item_2f a (Np.len a - 1)); simpl; [|discriminate].
  intros H. injection H as <-. simpl.
  rewrite <- Ht, <- Hp, <- Hv.
  rewrite Ht, length_map in Htimes.
  repeat split; assumption.
Qed.

(** ** The reduced series *)

Lemma snapshot_mean_yields (s : json) :
  snapshot_mean s =
  if yields_mean s
  then Some (snapshot_timestamp s, snapshot_position s, snapshot_velocity s)
  else None.
Proof.
  unfold yields_mean, snapshot_mean, snapshot_position, snapshot_velocity.
  destruct (filter validate_particle_data (listed_particles s)); reflexivity.
Qed.

Lemma reduced_entries_filter (data : list json) :
  reduced_entries data =
  map (fun s => (snapshot_timestamp s, snapshot_position s, snapshot_velocity s))
      (filter yields_mean data).
Proof.
  unfold reduced_entries.
  induction data as [|s data IH]; simpl; [reflexivity|].
  rewrite IH, snapshot_mean_yields.
  destruct (yields_mean s); reflexivity.
Qed.

Lemma reduced_entries_app (l1 l2 : list json) :
  reduced_entries (l1 ++ l2) = reduced_entries l1 ++ reduced_entries l2.
Proof. unfold reduced_entries. apply flat_map_app. Qed.

Lemma reduced_entries_from (data : list json) :
  Forall (fun e => exists s, In s data /\ snapshot_mean s = Some e) (reduced_entries data).
Proof.
  apply Forall_forall. intros e He.
  unfold reduced_entries in He. apply in_flat_map in He as [s [Hs He]].
  exists s. split; [exact Hs|].
  destruct (snapshot_mean s) as [e'|]; simpl in He; [|destruct He].
  destruct He as [<-|[]]. reflexivity.
Qed.

(** A snapshot whose listed particles are all valid yields their means. *)
Lemma snapshot_mean_all_valid (s : json) (ps : list json) :
  field_at s ["Particles"] = Some (JList ps) ->
  ps <> [] ->
  forallb validate_particle_data ps = true ->
  snapshot_mean s =
  Some (snapshot_timestamp s, mean_vector "Position" ps, mean_vector "Velocity" ps).
Proof.
  intros Hps Hne Hall. unfold snapshot_mean, listed_particles.
  rewrite Hps, (filter_all _ _ Hall).
  destruct ps; [contradiction|reflexivity].
Qed.

(** A dict whose particles, the default included, are a list without a
    valid particle yields no mean. *)
Lemma snapshot_mean_none_valid (s : json) (ps : list json) :
  Py.get s "Particles" (JList []) = Ret (JList ps) ->
  filter validate_particle_data ps = [] ->
  snapshot_mean s = None.
Proof.
  intros Hget Hnone. unfold snapshot_mean, listed_particles.
  destruct s as [| | | | |l|kv]; simpl in *; try discriminate Hget.
  destruct (Py.lookup "Particles" kv) as [v|]; [|reflexivity].
  injection Hget as ->. rewrite Hnone. reflexivity.
Qed.

(** ** The claims of the specification *)

(** C1: in a successful reduction, a snapshot whose listed particles are
    all valid has its entry (at the index given by the number of earlier
    snapshots that yield a mean) equal to the coordinate-wise arithmetic
    mean of the listed particles' positions and velocities: per X, Y and Z,
    the sum of the coordinates divided by their count.  Sum and division
    are binary64 operations; when a coordinate of the vector is an integer
    beyond 64 bits the integers are summed exactly and the sum is divided
    once. *)
Theorem snapshot_entry_is_arithmetic_mean
    (l1 l2 : list json) (s : json) (ps : list json) (r : ReducedSeries) :
  analyze_flow_field (l1 ++ s :: l2) = Some r ->
  field_at s ["Particles"] = Some (JList ps) ->
  ps <> [] ->
  forallb validate_particle_data ps = true ->
  let k := List.length (filter yields_mean l1) in
  let mean := fun vector =>
    if vector_beyond_64_bits vector ps then
      (exact_mean (map (coordinate_number vector "X") ps),
       exact_mean (map (coordinate_number vector "Y") ps),
       exact_mean (map (coordinate_number vector "Z") ps))
    else
      (arithmetic_mean (map (coordinate vector "X") ps),
       arithmetic_mean (map (coordinate vector "Y") ps),
       arithmetic_mean (map (coordinate vector "Z") ps)) in
  nth_error (positions r) k = Some (mean "Position") /\
  nth_error (velocities r) k = Some (mean "Velocity").
Proof.
  intros Hrun Hps Hne Hall k mean.
  destruct (analyze_flow_field_entries _ _ Hrun) as [_ [Hp [Hv _]]].
  pose proof (snapshot_mean_all_valid s ps Hps Hne Hall) as Hmean.
  assert (Hk : k = List.length (reduced_entries l1)).
  { subst k. rewrite reduced_entries_filter, length_map. reflexivity. }
  assert (Hsplit : reduced_entries (l1 ++ s :: l2) =
            reduced_entries l1 ++
            (snapshot_timestamp s, mean_vector "Position" ps, mean_vector "Velocity" ps)
              :: reduced_entries l2).
  { rewrite reduced_entries_app. unfold reduced_entries at 2. simpl.
    rewrite Hmean. reflexivity. }
  rewrite Hp, Hv, Hsplit, !map_app. simpl.
  split.
  - rewrite nth_error_app2 by (rewrite length_map; lia).
    rewrite length_map, <- Hk, Nat.sub_diag. reflexivity.
  - rewrite nth_error_app2 by (rewrite length_map; lia).
    rewrite length_map, <- Hk, Nat.sub_diag. reflexivity.
Qed.

(** Y coordinates 2^53, 1 and 1 beside an X of 2^70: the mean of Y is
    (2^53 + 2) / 3 rounded once, 3002399751580331.5. *)
Lemma snapshot_entry_is_arithmetic_mean_witness :
  exists r,
    analyze_flow_field scenario_beyond_64_bits = Some r /\
    nth_error (positions r) 0 =
      Some (Np.int_quotient (2 ^ 70) 3, Np.int_quotient (2 ^ 53 + 2) 3,
            PrimFloat.zero) /\
    nth_error (velocities r) 0 =
      Some (arithmetic_mean [Np.float_of_Z 1; Np.float_of_Z 1; Np.float_of_Z 1],
            arithmetic_mean [Np.float_of_Z 0; Np.float_of_Z 0; Np.float_of_Z 0],
            arithmetic_mean [Np.float_of_Z 0; Np.float_of_Z 0; Np.float_of_Z 0]).
Proof.
  eexists. split; [reflexivity|].
  apply (snapshot_entry_is_arithmetic_mean
           [] [nth 1 scenario_beyond_64_bits JNull]
           (snapshot (JInt 0) particles_beyond_64_bits)
           particles_beyond_64_bits).
  - reflexivity.
  - reflexivity.
  - discriminate.
  - reflexivity.
Defined.

(** C3: the reduction returns no series when the input has fewer than two
    snapshots, and when fewer than two snapshots yield a valid mean. *)
Theorem insufficient_data_fails (data : list json) :
  List.length data < 2 \/ List.length (filter yields_mean data) < 2 ->
  analyze_flow_field data = None.
Proof.
  intros H.
  destruct (analyze_flow_field data) as [r|] eqn:Hrun; [|reflexivity].
  destruct (analyze_flow_field_entries _ _ Hrun) as [_ [_ [_ [Hentries Hlen]]]].
  rewrite reduced_entries_filter, length_map in Hentries.
  lia.
Qed.

Lemma insufficient_data_fails_witness :
  analyze_flow_field [snapshot (JInt 0) []] = None /\
  analyze_flow_field [snapshot_bad_temperature; nth 0 scenario JNull] = None.
Proof.
  split.
  - apply (insufficient_data_fails [snapshot (JInt 0) []]). left. simpl. lia.
  - apply (insufficient_data_fails [snapshot_bad_temperature; nth 0 scenario JNull]).
    right. simpl. lia.
Defined.

(** C4: a successful reduction returns three sequences of one length, at
    least 2, and index-aligned: they are the times, the positions and the
    velocities of one list of triples, each triple taken from one snapshot
    of the input. *)
Theorem reduced_series_aligned (data : list json) (r : ReducedSeries) :
  analyze_flow_field data = Some r ->
  Np.len (times r) = List.length (positions r) /\
  List.length (positions r) = List.length (velocities r) /\
  2 <= List.length (positions r) /\
  exists entries,
    Np.array1 (map entry_time entries) = Ret (times r) /\
    positions r = map entry_position entries /\
    velocities r = map entry_velocity entries /\
    Forall (fun e => exists s, In s data /\ snapshot_mean s = Some e) entries.
Proof.
  intros Hrun.
  destruct (analyze_flow_field_entries _ _ Hrun) as [Ht [Hp [Hv [Hn _]]]].
  apply array1_len in Ht as Hlen. rewrite length_map in Hlen.
  rewrite Hp, Hv, !length_map. repeat split; try assumption.
  exists (reduced_entries data). rewrite <- Hp, <- Hv.
  repeat split; try assumption. apply reduced_entries_from.
Qed.

Lemma reduced_series_aligned_witness :
  exists r,
    analyze_flow_field scenario = Some r /\
    Np.len (times r) = List.length (positions r) /\
    List.length (positions r) = List.length (velocities r) /\
    2 <= List.length (positions r).
Proof.
  eexists. split; [reflexivity|].
  pose proof (reduced_series_aligned scenario _ eq_refl) as [H1 [H2 [H3 _]]].
  repeat split; assumption.
Defined.

(** C5: a snapshot whose particles are an empty sequence, or a sequence
    without a valid particle, is skipped: its turn of the loop leaves the
    three lists as they were, and a successful reduction holds the entries
    of the other snapshots only. *)
Theorem snapshot_without_valid_particle_skipped (s : json) (ps : list json) :
  Py.get s "Particles" (JList []) = Ret (JList ps) ->
  filter validate_particle_data ps = [] ->
  (forall n i st, loop_body n i s st = Ret st) /\
  (forall l1 l2 r,
     analyze_flow_field (l1 ++ s :: l2) = Some r ->
     Np.array1 (map entry_time (reduced_entries (l1 ++ l2))) = Ret (times r) /\
     positions r = map entry_position (reduced_entries (l1 ++ l2)) /\
     velocities r = map entry_velocity (reduced_entries (l1 ++ l2))).
Proof.
  intros Hget Hnone. split.
  - intros n i st. unfold loop_body.
    destruct s as [| | | | |l|kv]; try discriminate Hget.
    cbn [Py.isinstance_dict negb].
    replace (Py.get (JDict kv) "Timestamp" (JInt 0))
      with (Ret (match Py.lookup "Timestamp" kv with Some t => t | None => JInt 0 end))
      by (simpl; destruct (Py.lookup "Timestamp" kv); reflexivity).
    rewrite Hget. cbn [Py.bind].
    destruct ps as [|p ps']; [reflexivity|].
    cbn [Py.truthy negb Py.iter Py.bind]. rewrite Hnone. reflexivity.
  - intros l1 l2 r Hrun.
    destruct (analyze_flow_field_entries _ _ Hrun) as [Ht [Hp [Hv _]]].
    assert (Hsplit : reduced_entries (l1 ++ s :: l2) = reduced_entries (l1 ++ l2)).
    { rewrite !reduced_entries_app. unfold reduced_entries at 2. simpl.
      rewrite (snapshot_mean_none_valid s ps Hget Hnone). reflexivity. }
    rewrite <- Hsplit. repeat split; assumption.
Qed.

Lemma snapshot_without_valid_particle_skipped_witness :
  loop_body 3 0 snapshot_bad_temperature accum_empty = Ret accum_empty /\
  exists r,
    analyze_flow_field (snapshot_bad_temperature :: scenario) = Some r /\
    positions r = map entry_position (reduced_entries scenario).
Proof.
  destruct (snapshot_without_valid_particle_skipped snapshot_bad_temperature
              [particle (JInt 0) (JInt 0) (JInt 0) (JInt 1) (JInt 0) (JInt 0) (JStr "hot")]
              eq_refl eq_refl) as [Hskip Hrest].
  split; [apply Hskip|].
  eexists. split; [reflexivity|].
  apply (Hrest [] scenario). reflexivity.
Defined.

(** C7: a successful reduction holds the snapshots that yield a mean in the
    order of the input: its times are the array of their timestamps, its
    positions and velocities the lists of their means, none of them sorted. *)
Theorem input_order_preserved (data : list json) (r : ReducedSeries) :
  analyze_flow_field data = Some r ->
  Np.array1 (map snapshot_timestamp (filter yields_mean data)) = Ret (times r) /\
  positions r = map snapshot_position (filter yields_mean data) /\
  velocities r = map snapshot_velocity (filter yields_mean data).
Proof.
  intros Hrun.
  destruct (analyze_flow_field_entries _ _ Hrun) as [Ht [Hp [Hv _]]].
  rewrite reduced_entries_filter in Ht, Hp, Hv.
  rewrite !map_map in Ht, Hp, Hv.
  repeat split; assumption.
Qed.

(** Timestamps 1 then 0 in the input are times 1 then 0 in the output. *)
Lemma input_order_preserved_witness :
  exists r,
    analyze_flow_field scenario_reversed = Some r /\
    times r = Np.ArrInt64 [1%Z; 0%Z] /\
    Np.array1 (map snapshot_timestamp (filter yields_mean scenario_reversed)) =
      Ret (times r).
Proof.
  eexists. split; [reflexivity|]. split; [reflexivity|].
  apply (input_order_preserved scenario_reversed). reflexivity.
Defined.

(** C8: on the two snapshots of the scenario the reduction returns
    times [0, 1], positions [(0,0,0), (1,0,0)] and velocities
    [(1,0,0), (1,0,0)]. *)
Theorem scenario_reduced :
  analyze_flow_field scenario =
  Some (mkSeries (Np.ArrInt64 [0%Z; 1%Z])
          [(PrimFloat.one, PrimFloat.zero, PrimFloat.zero);
           (PrimFloat.one, PrimFloat.zero, PrimFloat.zero)]
          [(PrimFloat.zero, PrimFloat.zero, PrimFloat.zero);
           (PrimFloat.one, PrimFloat.zero, PrimFloat.zero)]).
Proof. reflexivity. Qed.


(** C10: a particle whose seven checked fields are each an [int], a
    [float] or a [bool] is valid.  A snapshot that lists only such
    particles loses none of them to the filter, and in a successful
    reduction its entry is the mean over all of them, in which a boolean
    coordinate counts as the integer 1 or 0. *)
Theorem booleans_count_as_numeric :
  (forall p,
     (forall path, In path checked_fields -> present_numeric p path) ->
     validate_particle_data p = true) /\
  (forall l1 l2 s ps r,
     analyze_flow_field (l1 ++ s :: l2) = Some r ->
     field_at s ["Particles"] = Some (JList ps) ->
     ps <> [] ->
     (forall p, In p ps ->
      forall path, In path checked_fields -> present_numeric p path) ->
     filter validate_particle_data ps = ps /\
     nth_error (positions r) (List.length (filter yields_mean l1)) =
       Some (mean_vector "Position" ps) /\
     nth_error (velocities r) (List.length (filter yields_mean l1)) =
       Some (mean_vector "Velocity" ps)) /\
  (forall vector axis p b,
     field_at p [vector; axis] = Some (JBool b) ->
     coordinate_number vector axis p = Np.PyInt (if b then 1 else 0) /\
     coordinate vector axis p = Np.float_of_Z (if b then 1 else 0)).
Proof.
  split; [|split].
  - intros p Hfields. apply validate_true_fields. exact Hfields.
  - intros l1 l2 s ps r Hrun Hps Hne Hfields.
    assert (Hall : forallb validate_particle_data ps = true).
    { apply forallb_forall. intros p Hin. apply validate_true_fields.
      apply Hfields. exact Hin. }
    split; [apply filter_all; exact Hall|].
    destruct (analyze_flow_field_entries _ _ Hrun) as [_ [Hp [Hv _]]].
    assert (Hk : List.length (filter yields_mean l1) =
                 List.length (reduced_entries l1))
      by (rewrite reduced_entries_filter, length_map; reflexivity).
    assert (Hsplit : reduced_entries (l1 ++ s :: l2) =
              reduced_entries l1 ++
              (snapshot_timestamp s, mean_vector "Position" ps,
               mean_vector "Velocity" ps) :: reduced_entries l2).
    { rewrite reduced_entries_app. unfold reduced_entries at 2. simpl.
      rewrite (snapshot_mean_all_valid s ps Hps Hne Hall). reflexivity. }
    rewrite Hp, Hv, Hsplit, !map_app, Hk. simpl.
    split.
    + rewrite nth_error_app2 by (rewrite length_map; lia).
      rewrite length_map, Nat.sub_diag. reflexivity.
    + rewrite nth_error_app2 by (rewrite length_map; lia).
      rewrite length_map, Nat.sub_diag. reflexivity.
  - intros vector axis p b Hb. unfold coordinate, coordinate_number.
    rewrite Hb. split; reflexivity.
Qed.

(** Three particles with booleans among their coordinates: the mean
    position is ((1 + 2 + 0) / 3, (0 + 1 + 2) / 3, (1 + 1 + 4) / 3). *)
Lemma booleans_count_as_numeric_witness :
  validate_particle_data particle_of_bools = true /\
  exists r,
    analyze_flow_field scenario_bools = Some r /\
    nth_error (positions r) 0 =
      Some (Np.float_of_Z 1, Np.float_of_Z 1, Np.float_of_Z 2).
Proof.
  destruct booleans_count_as_numeric as [Hvalid [Hmean _]].
  split.
  - apply Hvalid. intros path Hin. unfold checked_fields in Hin. simpl in Hin.
    repeat (destruct Hin as [<-|Hin];
            [eexists; split; [reflexivity | constructor]|]).
    destruct Hin.
  - eexists. split; [reflexivity|].
    apply (Hmean [] [nth 1 scenario_bools JNull]
             (snapshot (JInt 0) particles_with_bools) particles_with_bools).
    + reflexivity.
    + reflexivity.
    + discriminate.
    + intros p Hin path Hpath.
      unfold particles_with_bools in Hin. simpl in Hin.
      unfold checked_fields in Hpath. simpl in Hpath.
      repeat (destruct Hin as [<-|Hin];
              [repeat (destruct Hpath as [<-|Hpath];
                       [eexists; split; [reflexivity | constructor]|]);
               destruct Hpath|]).
      destruct Hin.
Defined.

(** ** The loader *)


(** * Further properties of the code *)

Lemma loop_app (n : nat) (l1 l2 : list json) :
  forall (i : nat) (st : accum),
    loop n i (l1 ++ l2) st =
    (st' <- loop n i l1 st ;; loop n (i + List.length l1) l2 st').
Proof.
  induction l1 as [|s l1 IH]; intros i st; simpl.
  - rewrite Nat.add_0_r. reflexivity.
  - destruct (loop_body n i s st) as [st1|]; simpl; [|reflexivity].
    rewrite IH. replace (S i + List.length l1) with (i + S (List.length l1)) by lia.
    reflexivity.
Qed.


(** ** Inputs that abort the reduction, and inputs that cannot *)

Lemma not_iterable_raises (v : json) :
  iterable v = false -> Py.iter v = Raise.
Proof. destruct v; simpl; intros H; try reflexivity; discriminate H. Qed.

Lemma iterable_iter (v : json) :
  iterable v = true -> exists ps, Py.iter v = Ret ps.
Proof. destruct v; simpl; intros H; try discriminate H; eexists; reflexivity. Qed.

(** X1: a dict snapshot whose [Particles] is neither empty nor something to
    iterate over (a non-zero number, [true]) is not skipped: the exception
    it raises ends the loop, and the reduction of every input that holds
    such a snapshot returns no series, whatever the other snapshots are. *)
Theorem non_iterable_particles_abort
    (s particles : json) (l1 l2 : list json) :
  Py.get s "Particles" (JList []) = Ret particles ->
  Py.truthy particles = true ->
  iterable particles = false ->
  analyze_flow_field (l1 ++ s :: l2) = None.
Proof.
  intros Hparts Htruthy Hiter.
  unfold analyze_flow_field, analyze_flow_try.
  destruct (negb (Py.truthy (JList (l1 ++ s :: l2))) ||
            Nat.ltb (List.length (l1 ++ s :: l2)) 2); [reflexivity|].
  rewrite loop_app.
  destruct (loop (List.length (l1 ++ s :: l2)) 0 l1 accum_empty) as [st|];
    cbn [Py.bind]; [|reflexivity].
  cbn [loop].
  rewrite (loop_body_dict _ _ _ _ _ Hparts), Htruthy, (not_iterable_raises _ Hiter).
  reflexivity.
Qed.

Lemma non_iterable_particles_abort_witness :
  analyze_flow_field
    (scenario ++ [JDict [("Timestamp", JInt 2); ("Particles", JInt 5)]]) = None.
Proof.
  apply (non_iterable_particles_abort
           (JDict [("Timestamp", JInt 2); ("Particles", JInt 5)]) (JInt 5) scenario []);
    reflexivity.
Defined.

Lemma snapshot_mean_none (s : json) :
  snapshot_mean s = None ->
  filter validate_particle_data (listed_particles s) = [].
Proof.
  unfold snapshot_mean.
  destruct (filter validate_particle_data (listed_particles s));
    [reflexivity | discriminate].
Qed.

Lemma loop_body_tolerated (n i : nat) (s : json) (st : accum) :
  tolerated s = true ->
  loop_body n i s st = Ret (record_entry st (snapshot_mean s)).
Proof.
  unfold tolerated.
  destruct (Py.get s "Particles" (JList [])) as [particles|] eqn:Hparts.
  - intros H. apply andb_true_iff in H as [Hshape Hmean].
    rewrite (loop_body_dict _ _ _ _ _ Hparts).
    destruct (Py.truthy particles) eqn:Htruthy; cbn [negb].
    + simpl in Hshape. destruct (iterable_iter _ Hshape) as [ps ->]. cbn [Py.bind].
      unfold yields_mean in Hmean. unfold snapshot_mean in *.
      pose proof (forallb_filter validate_particle_data (listed_particles s)) as Hall.
      destruct (filter validate_particle_data (listed_particles s)) as [|q valid];
        [reflexivity|].
      simpl in Hmean.
      apply andb_true_iff in Hmean as [Hmean Hvel].
      apply andb_true_iff in Hmean as [Htime Hpos].
      apply negb_true_iff in Hpos, Hvel.
      unfold turn_on_valid.
      rewrite (mean_axis0_within "Position" _ (or_introl eq_refl) Hall Hpos),
        (mean_axis0_within "Velocity" _ (or_intror eq_refl) Hall Hvel).
      cbn [Py.bind]. unfold formattable in Htime.
      destruct (format_2f (snapshot_timestamp s)) as [[]|]; [|discriminate Htime].
      destruct (Nat.eqb i 0 || Nat.eqb i (n - 1)); reflexivity.
    + rewrite (snapshot_mean_filter s), (get_particles _ _ Hparts),
        (falsy_no_particles _ Htruthy).
      reflexivity.
  - intros _. apply get_Raise in Hparts.
    destruct (loop_body_not_dict n i s st Hparts) as [-> ->]. reflexivity.
Qed.

Lemma loop_tolerated (n : nat) (data : list json) :
  forallb tolerated data = true ->
  forall (i : nat) (st : accum), exists st', loop n i data st = Ret st'.
Proof.
  induction data as [|s data IH]; simpl; intros H i st.
  - exists st. reflexivity.
  - apply andb_true_iff in H as [Hs Hdata].
    rewrite (loop_body_tolerated _ _ _ _ Hs). cbn [Py.bind].
    apply IH. exact Hdata.
Qed.

Lemma not_exists_forall {A : Type} (f : A -> bool) (l : list A) (x : A) :
  existsb f l = false -> In x l -> f x = false.
Proof.
  intros H Hin. destruct (f x) eqn:Hx; [|reflexivity].
  assert (existsb f l = true) by (apply existsb_exists; exists x; tauto).
  congruence.
Qed.

Lemma existsb_excluded {A : Type} (f g : A -> bool) (l : list A) :
  (forall x, f x = true -> g x = false) ->
  forallb f l = true -> existsb g l = false.
Proof.
  intros Hfg. induction l as [|x l IH]; simpl; intros H; [reflexivity|].
  apply andb_true_iff in H as [Hx Hl]. rewrite (Hfg x Hx), IH by exact Hl.
  reflexivity.
Qed.

(** An array of numbers that format is built, and its entries format. *)
Lemma array1_numbers (l : list json) :
  forallb formattable l = true ->
  exists a,
    Np.array1 l = Ret a /\
    forall i, i < List.length l -> format_item_2f a i = Ret tt.
Proof.
  intros H. unfold Np.array1.
  rewrite (existsb_excluded formattable Py.isinstance_list l),
    (existsb_excluded formattable Np.is_none_or_dict l),
    (existsb_excluded formattable Np.is_str l);
    try exact H; try (intros [] Hx; try reflexivity; discriminate Hx).
  cbn [orb].
  destruct (existsb Np.forces_object l).
  { eexists. split; [reflexivity|]. intros i Hi. simpl.
    pose proof (proj1 (forallb_forall _ _) H _ (nth_In l JNull Hi)) as Hfmt.
    unfold formattable in Hfmt.
    destruct (format_2f (nth i l JNull)) as [[]|]; [reflexivity | discriminate Hfmt]. }
  destruct (forallb Np.is_bool l);
    [|destruct (forallb Np.is_bool_or_int64 l);
      [|destruct (forallb Np.is_bool_or_uint64 l)]];
    eexists; (split; [reflexivity | intros i _; reflexivity]).
Qed.

Lemma tolerated_times (data : list json) :
  forallb tolerated data = true ->
  forallb formattable (map entry_time (reduced_entries data)) = true.
Proof.
  intros H. rewrite reduced_entries_filter, map_map. simpl.
  apply forallb_forall. intros t Ht.
  apply in_map_iff in Ht as [s [<- Hs]]. apply filter_In in Hs as [Hin Hy].
  pose proof (proj1 (forallb_forall _ _) H s Hin) as Htol.
  unfold tolerated in Htol.
  destruct (Py.get s "Particles" (JList [])) as [particles|] eqn:Hparts.
  - apply andb_true_iff in Htol as [_ Hmean]. rewrite Hy in Hmean.
    simpl in Hmean. apply andb_true_iff in Hmean as [Hmean _].
    apply andb_true_iff in Hmean as [Htime _]. exact Htime.
  - apply get_Raise in Hparts.
    destruct (loop_body_not_dict 0 0 s accum_empty Hparts) as [_ Hnone].
    unfold yields_mean in Hy. rewrite Hnone in Hy. discriminate Hy.
Qed.

(** X2: on an input whose snapshots are all tolerated (particles empty or
    iterable; for the snapshots that yield a mean, a timestamp that is a
    number that formats and no integer coordinate beyond 64 bits among the
    valid particles), too few time points is the only way to fail: the
    reduction returns a series exactly when at least two snapshots yield a
    mean. *)
Theorem tolerated_input_succeeds_iff (data : list json) :
  forallb tolerated data = true ->
  ((exists r, analyze_flow_field data = Some r) <->
   2 <= List.length (filter yields_mean data)).
Proof.
  intros Htol. split.
  - intros [r Hrun].
    destruct (analyze_flow_field_entries _ _ Hrun) as [_ [_ [_ [Hn _]]]].
    rewrite reduced_entries_filter, length_map in Hn. exact Hn.
  - intros Hn.
    pose proof (filter_length_le yields_mean data) as Hle.
    unfold analyze_flow_field, analyze_flow_try.
    destruct data as [|s0 data0] eqn:Hdata; [simpl in Hn; lia|].
    rewrite <- Hdata in *. replace (Py.truthy (JList data)) with true by (subst; reflexivity).
    cbn [negb orb].
    destruct (Nat.ltb_spec (List.length data) 2) as [Hlt|_]; [lia|].
    destruct (loop_tolerated (List.length data) data Htol 0 accum_empty)
      as [st Hloop].
    rewrite Hloop. cbn [Py.bind].
    destruct (loop_entries _ _ _ _ _ Hloop) as [Ht _]. simpl in Ht.
    unfold after_loop. rewrite Ht, length_map.
    rewrite reduced_entries_filter, length_map.
    destruct (Nat.ltb_spec (List.length (filter yields_mean data)) 2) as [Hlt|_];
      [lia|].
    rewrite <- reduced_entries_filter.
    destruct (array1_numbers _ (tolerated_times data Htol)) as [a [Ha Hfmt]].
    rewrite Ha. cbn [Py.bind].
    assert (Hlen : List.length (map entry_time (reduced_entries data)) =
                   List.length (filter yields_mean data))
      by (rewrite reduced_entries_filter, !length_map; reflexivity).
    rewrite (array1_len _ _ Ha), !Hfmt by lia. cbn [Py.bind].
    eexists. reflexivity.
Qed.

(** A coordinate of 10^400 is not tolerated: its mean raises
    [OverflowError], and the reduction returns no series. *)
Lemma tolerated_input_succeeds_iff_witness :
  ((exists r, analyze_flow_field (JInt 7 :: snapshot_bad_temperature :: scenario) = Some r) <->
   2 <= List.length (filter yields_mean (JInt 7 :: snapshot_bad_temperature :: scenario))) /\
  tolerated
    (snapshot (JInt 0)
       [particle (JInt (10 ^ 400)) (JInt 0) (JInt 0) (JInt 1) (JInt 0) (JInt 0) (JInt 300)])
    = false /\
  analyze_flow_field
    [ snapshot (JInt 0)
        [particle (JInt (10 ^ 400)) (JInt 0) (JInt 0) (JInt 1) (JInt 0) (JInt 0) (JInt 300)];
      nth 1 scenario JNull ] = None.
Proof.
  split; [|split; reflexivity].
  apply (tolerated_input_succeeds_iff (JInt 7 :: snapshot_bad_temperature :: scenario)).
  reflexivity.
Defined.

(** ** The ends of the time axis *)

(** What the summary after the loop adds to a successful reduction. *)
Lemma analyze_flow_field_formats (data : list json) (r : ReducedSeries) :
  analyze_flow_field data = Some r ->
  format_item_2f (times r) 0 = Ret tt /\
  format_item_2f (times r) (Np.len (times r) - 1) = Ret tt.
Proof.
  unfold analyze_flow_field, analyze_flow_try.
  destruct (negb (Py.truthy (JList data)) || Nat.ltb (List.length data) 2);
    [discriminate|].
  destruct (loop (List.length data) 0 data accum_empty) as [st|]; simpl;
    [|discriminate].
  unfold after_loop.
  destruct (Nat.ltb (List.length (acc_times st)) 2); [discriminate|].
  destruct (Np.array1 (acc_times st)) as [a|]; simpl; [|discriminate].
  destruct (format_item_2f a 0) as [[]|] eqn:H0; simpl; [|discriminate].
  destruct (format_item_2f a (Np.len a - 1)) as [[]|] eqn:H1; simpl; [|discriminate].
  intros H. injection H as <-. simpl. split; assumption.
Qed.

Lemma format_2f_numeric (v : json) : format_2f v = Ret tt -> numeric v.
Proof.
  destruct v; simpl; intros H; try discriminate H; constructor.
Qed.

(** The entries of an array whose two end entries format are numbers at
    both ends. *)
Lemma array1_ends_numeric (l : list json) (a : Np.ndarray1) (i : nat) :
  Np.array1 l = Ret a ->
  i < List.length l ->
  format_item_2f a i = Ret tt ->
  numeric (nth i l JNull).
Proof.
  unfold Np.array1. intros Harr Hi Hfmt.
  pose proof (nth_In l JNull Hi) as Hin.
  destruct (existsb Py.isinstance_list l) eqn:Hlist; [discriminate|].
  destruct (existsb Np.is_none_or_dict l || existsb Np.forces_object l) eqn:Hobj.
  { injection Harr as <-. simpl in Hfmt. apply format_2f_numeric. exact Hfmt. }
  apply orb_false_iff in Hobj as [Hobj _].
  destruct (existsb Np.is_str l) eqn:Hstr.
  { injection Harr as <-. discriminate Hfmt. }
  pose proof (not_exists_forall _ _ _ Hlist Hin) as H1.
  pose proof (not_exists_forall _ _ _ Hobj Hin) as H2.
  pose proof (not_exists_forall _ _ _ Hstr Hin) as H3.
  destruct (nth i l JNull); try discriminate; constructor.
Qed.

(** X3: in every series the reduction returns, the first and the last
    time come from numeric timestamps: a string, [null], list or dict for a
    timestamp of the first or of the last snapshot that yields a mean makes
    the whole reduction fail. *)
Theorem end_timestamps_numeric (data : list json) (r : ReducedSeries) :
  analyze_flow_field data = Some r ->
  let recorded := map snapshot_timestamp (filter yields_mean data) in
  numeric (nth 0 recorded JNull) /\
  numeric (nth (List.length recorded - 1) recorded JNull).
Proof.
  intros Hrun recorded.
  destruct (analyze_flow_field_entries _ _ Hrun) as [Harr [_ [_ [Hn _]]]].
  destruct (analyze_flow_field_formats _ _ Hrun) as [Hfirst Hlast].
  rewrite reduced_entries_filter, length_map in Hn.
  rewrite reduced_entries_filter, map_map in Harr. simpl in Harr.
  fold recorded in Harr.
  assert (Hlen : List.length recorded = List.length (filter yields_mean data))
    by (unfold recorded; apply length_map).
  rewrite (array1_len _ _ Harr) in Hlast.
  split.
  - apply (array1_ends_numeric recorded (times r)); [exact Harr | lia | exact Hfirst].
  - apply (array1_ends_numeric recorded (times r)); [exact Harr | lia | exact Hlast].
Qed.

Lemma end_timestamps_numeric_witness :
  numeric (nth 0 (map snapshot_timestamp (filter yields_mean scenario)) JNull) /\
  analyze_flow_field
    [ snapshot (JStr "2024-01-01")
        [particle (JInt 0) (JInt 0) (JInt 0) (JInt 1) (JInt 0) (JInt 0) (JInt 300)];
      nth 1 scenario JNull ] = None.
Proof.
  split; [|reflexivity].
  apply (end_timestamps_numeric scenario _ eq_refl).
Defined.

(** ** What the result depends on *)

Lemma map_through {A B C : Type} (f : A -> C) (g : A -> B) (h : B -> C)
    (l l' : list A) :
  (forall x, f x = h (g x)) -> map g l = map g l' -> map f l = map f l'.
Proof.
  intros Hf Hg.
  rewrite (map_ext f (fun x => h (g x)) Hf l), (map_ext f (fun x => h (g x)) Hf l').
  rewrite <- !(map_map g h). rewrite Hg. reflexivity.
Qed.

(** The rows the source reads are made of the six coordinates. *)
Lemma raw_rows_vectors (vector : string) (l l' : list json) :
  vector = "Position" \/ vector = "Velocity" ->
  map vectors l = map vectors l' ->
  map (raw_row vector) l = map (raw_row vector) l'.
Proof.
  intros Hvec H.
  pose (pick := fun (k : nat) (v : list (option json)) =>
                  match nth k v None with
                  | Some x => x
                  | None => JNull
                  end).
  destruct Hvec as [-> | ->].
  - apply (map_through _ vectors
             (fun v => (pick 0 v, pick 1 v, pick 2 v))); [|exact H].
    intros p. reflexivity.
  - apply (map_through _ vectors
             (fun v => (pick 3 v, pick 4 v, pick 5 v))); [|exact H].
    intros p. reflexivity.
Qed.

Lemma list_turn (n i : nat) (s : json) (ps : list json) (st : accum) :
  Py.get s "Particles" (JList []) = Ret (JList ps) ->
  loop_body n i s st =
  match filter validate_particle_data ps with
  | [] => Ret st
  | _ :: _ =>
      turn_on_valid n i (snapshot_timestamp s) (filter validate_particle_data ps) st
  end.
Proof.
  intros Hps. rewrite (loop_body_dict _ _ _ _ _ Hps), (get_particles _ _ Hps).
  destruct ps as [|p ps]; reflexivity.
Qed.

Lemma same_input_turn (n i : nat) (s s' : json) (st : accum) :
  same_reduction_input s s' -> loop_body n i s st = loop_body n i s' st.
Proof.
  intros [-> | [Htime [ps [ps' [Hps [Hps' Hvec]]]]]]; [reflexivity|].
  rewrite (list_turn _ _ _ _ _ Hps), (list_turn _ _ _ _ _ Hps').
  destruct (get_same_dict s "Particles" "Timestamp" _ (JInt 0) _ Hps) as [t Ht].
  rewrite Ht in Htime. symmetry in Htime.
  rewrite (get_timestamp _ _ Ht), (get_timestamp _ _ Htime).
  pose proof (raw_rows_vectors "Position" _ _ (or_introl eq_refl) Hvec) as Hp.
  pose proof (raw_rows_vectors "Velocity" _ _ (or_intror eq_refl) Hvec) as Hv.
  apply (f_equal (@List.length _)) in Hvec. rewrite !length_map in Hvec.
  unfold turn_on_valid. rewrite Hp, Hv.
  destruct (filter validate_particle_data ps), (filter validate_particle_data ps');
    try discriminate Hvec; reflexivity.
Qed.

(** X4: the result depends on the timestamps and on the positions and
    velocities of the valid particles only.  Two inputs whose snapshots,
    one by one, are equal or have the same timestamp and valid particles
    with the same six coordinates give the same result: invalid particles,
    temperatures and any further keys of a snapshot or particle do not
    enter it. *)
Theorem result_reads_valid_vectors_only (data data' : list json) :
  Forall2 same_reduction_input data data' ->
  analyze_flow_field data = analyze_flow_field data'.
Proof.
  intros H. unfold analyze_flow_field, analyze_flow_try.
  rewrite <- (Forall2_length H).
  replace (Py.truthy (JList data')) with (Py.truthy (JList data))
    by (destruct H; reflexivity).
  assert (Hloop : forall i st,
            loop (List.length data) i data st = loop (List.length data) i data' st).
  { generalize (List.length data) as n.
    induction H as [|s s' l l' Hs _ IH]; intros n i st; simpl; [reflexivity|].
    rewrite (same_input_turn n i s s' st Hs).
    destruct (loop_body n i s' st); simpl; [apply IH | reflexivity]. }
  rewrite Hloop. reflexivity.
Qed.

Lemma result_reads_valid_vectors_only_witness :
  analyze_flow_field
    [ JDict [ ("Run", JStr "a");
              ("Particles",
               JList [ JStr "noise";
                       JDict [ ("Id", JInt 7);
                               ("Temperature", JFloat PrimFloat.one);
                               ("Velocity", JDict [("X", JInt 1); ("Y", JInt 0); ("Z", JInt 0)]);
                               ("Position", JDict [("X", JInt 0); ("Y", JInt 0); ("Z", JInt 0)]) ] ]);
              ("Timestamp", JInt 0) ];
      nth 1 scenario JNull ] =
  analyze_flow_field scenario.
Proof.
  apply result_reads_valid_vectors_only.
  constructor; [|constructor; [left; reflexivity | constructor]].
  right. split; [reflexivity|].
  eexists. eexists. split; [reflexivity|]. split; reflexivity.
Defined.

(** ** Snapshots that are passed over *)

Lemma reduced_entries_without (l1 l2 : list json) (s : json) :
  snapshot_mean s = None ->
  reduced_entries (l1 ++ s :: l2) = reduced_entries (l1 ++ l2).
Proof.
  intros Hnone. rewrite !reduced_entries_app. unfold reduced_entries at 2.
  simpl. rewrite Hnone. reflexivity.
Qed.

(** X5: a snapshot that is not a dict, and a dict whose [Particles] is not
    a list but is empty ([null], 0, [false], an empty string or dict) or
    can be iterated over (a dict of particles, a string), is passed over
    without an error: its turn leaves the three lists as they were, and a
    series returned for an input that holds it is made of the other
    snapshots. *)
Theorem unlisted_particles_skipped (s : json) :
  (Py.isinstance_dict s = false \/
   exists particles,
     Py.get s "Particles" (JList []) = Ret particles /\
     Py.isinstance_list particles = false /\
     (Py.truthy particles = false \/ iterable particles = true)) ->
  (forall n i st, loop_body n i s st = Ret st) /\
  (forall l1 l2 r,
     analyze_flow_field (l1 ++ s :: l2) = Some r ->
     Np.array1 (map entry_time (reduced_entries (l1 ++ l2))) = Ret (times r) /\
     positions r = map entry_position (reduced_entries (l1 ++ l2)) /\
     velocities r = map entry_velocity (reduced_entries (l1 ++ l2))).
Proof.
  intros H.
  assert (Hnone : snapshot_mean s = None).
  { destruct H as [Hnd | [particles [Hparts [Hnl _]]]].
    - apply (loop_body_not_dict 0 0 s accum_empty Hnd).
    - rewrite (snapshot_mean_filter s), (get_particles _ _ Hparts).
      destruct particles; try reflexivity; discriminate Hnl. }
  split.
  - intros n i st.
    destruct H as [Hnd | [particles [Hparts [_ Hshape]]]].
    + apply (loop_body_not_dict n i s st Hnd).
    + rewrite (loop_body_dict _ _ _ _ _ Hparts), (snapshot_mean_none _ Hnone).
      destruct (Py.truthy particles) eqn:Htruthy; cbn [negb]; [|reflexivity].
      destruct Hshape as [Hfalse | Hiter]; [discriminate Hfalse|].
      destruct (iterable_iter _ Hiter) as [ps ->]. reflexivity.
  - intros l1 l2 r Hrun.
    destruct (analyze_flow_field_entries _ _ Hrun) as [Ht [Hp [Hv _]]].
    rewrite <- (reduced_entries_without l1 l2 s Hnone).
    repeat split; assumption.
Qed.

Lemma unlisted_particles_skipped_witness :
  loop_body 3 0
    (JDict [("Timestamp", JInt 0);
            ("Particles", JDict [("p1", nth 0 (listed_particles (nth 0 scenario JNull)) JNull)])])
    accum_empty = Ret accum_empty /\
  loop_body 3 1 (JStr "snapshot") accum_empty = Ret accum_empty.
Proof.
  split.
  - apply (unlisted_particles_skipped
             (JDict [("Timestamp", JInt 0);
                     ("Particles",
                      JDict [("p1", nth 0 (listed_particles (nth 0 scenario JNull)) JNull)])])).
    right. eexists. split; [reflexivity|]. split; [reflexivity|]. right. reflexivity.
  - apply (unlisted_particles_skipped (JStr "snapshot")). left. reflexivity.
Defined.

(** X6: a snapshot without a [Timestamp] key that yields a mean is given
    the time 0: in a series returned for an input that holds it, the times
    are the array of the other snapshots' timestamps with the integer 0 at
    its place. *)
Theorem missing_timestamp_is_zero
    (l1 l2 : list json) (s : json) (r : ReducedSeries) :
  analyze_flow_field (l1 ++ s :: l2) = Some r ->
  field_at s ["Timestamp"] = None ->
  yields_mean s = true ->
  Np.array1 (map snapshot_timestamp (filter yields_mean l1) ++
             JInt 0 :: map snapshot_timestamp (filter yields_mean l2)) =
  Ret (times r).
Proof.
  intros Hrun Hmiss Hyields.
  destruct (analyze_flow_field_entries _ _ Hrun) as [Ht _].
  rewrite reduced_entries_filter, map_map in Ht. simpl in Ht.
  rewrite filter_app in Ht. simpl in Ht. rewrite Hyields in Ht.
  rewrite map_app in Ht. simpl in Ht.
  unfold snapshot_timestamp at 2 in Ht. rewrite Hmiss in Ht.
  exact Ht.
Qed.

Lemma missing_timestamp_is_zero_witness :
  exists r,
    analyze_flow_field
      [ nth 1 scenario JNull;
        JDict [("Particles", JList (listed_particles (nth 0 scenario JNull)))] ] = Some r /\
    Np.array1 [JInt 1; JInt 0] = Ret (times r).
Proof.
  eexists. split; [reflexivity|].
  apply (missing_timestamp_is_zero
           [nth 1 scenario JNull] []
           (JDict [("Particles", JList (listed_particles (nth 0 scenario JNull)))]));
    reflexivity.
Defined.

(** ** What validity depends on *)

(** X7: validity is decided by the seven checked fields alone: two
    particles that agree on them are both valid or both invalid, whatever
    else they hold and in whatever order. *)
Theorem validity_reads_checked_fields_only (p q : json) :
  (forall path, In path checked_fields -> field_at p path = field_at q path) ->
  validate_particle_data p = validate_particle_data q.
Proof.
  intros Hsame.
  assert (Hiff : validate_particle_data p = true <-> validate_particle_data q = true).
  { rewrite !validate_true_fields. unfold present_numeric.
    split; intros H path Hin; specialize (H path Hin).
    - rewrite <- (Hsame path Hin). exact H.
    - rewrite (Hsame path Hin). exact H. }
  destruct (validate_particle_data p), (validate_particle_data q);
    try reflexivity; destruct Hiff as [H1 H2];
    [ discriminate (H1 eq_refl) | discriminate (H2 eq_refl) ].
Qed.

Lemma validity_reads_checked_fields_only_witness :
  validate_particle_data
    (JDict [ ("Id", JStr "p1");
             ("Temperature", JInt 300);
             ("Velocity", JDict [("Z", JInt 0); ("Y", JInt 0); ("X", JInt 1); ("W", JNull)]);
             ("Position", JDict [("X", JInt 0); ("Y", JInt 0); ("Z", JInt 0)]) ]) =
  validate_particle_data
    (particle (JInt 0) (JInt 0) (JInt 0) (JInt 1) (JInt 0) (JInt 0) (JInt 300)).
Proof.
  apply validity_reads_checked_fields_only.
  intros path Hin. unfold checked_fields in Hin. simpl in Hin.
  repeat (destruct Hin as [<-|Hin]; [reflexivity|]). destruct Hin.
Defined.

(** ** [main] *)

Lemma loaded_not_empty
    (open_read : string -> exc string) (json_load : string -> exc json)
    (filename : string) (data : list json) :
  load_simulation_data open_read json_load filename = Some data ->
  Py.truthy (JList data) = true.
Proof.
  unfold load_simulation_data, load_simulation_try.
  destruct (open_read filename) as [text|]; simpl; [|discriminate].
  destruct (json_load text) as [v|]; simpl; [|discriminate].
  destruct v as [| | | | |l|kv]; try discriminate.
  destruct l; simpl; [discriminate|].
  intros H. injection H as <-. reflexivity.
Qed.

Lemma two_arguments (argv : list string) :
  Nat.eqb (List.length argv) 2 = true ->
  exists prog input_file, argv = [prog; input_file].
Proof.
  destruct argv as [|prog [|input_file [|extra argv]]]; simpl; intros H;
    try discriminate H.
  exists prog, input_file. reflexivity.
Qed.

Section MainProperties.

Variable world : Type.
Variable open_read : string -> exc string.
Variable json_load : string -> exc json.
Variable splitext_root : string -> string.
Variable draw : plot -> ReducedSeries -> string -> world -> exc unit * world.

(** X8: the exit status of [main] is 0 or 1, and it is 0 exactly when
    there is one argument besides the program name, the loader returns the
    document and the reduction a series; whether a chart could be drawn
    does not enter it. *)
Theorem main_exit_status (argv : list string) (w : world) :
  (fst (main world open_read json_load splitext_root draw argv w) = 0 \/ fst (main world open_read json_load splitext_root draw argv w) = 1) /\
  (fst (main world open_read json_load splitext_root draw argv w) = 0 <->
   exists prog input_file data r,
     argv = [prog; input_file] /\
     load_simulation_data open_read json_load input_file = Some data /\
     analyze_flow_field data = Some r).
Proof.
  unfold main.
  destruct (Nat.eqb (List.length argv) 2) eqn:Hargs; cbn [negb].
  2: { split; [right; reflexivity|]. split; [discriminate|].
       intros [prog [input_file [data [r [-> _]]]]]. discriminate Hargs. }
  destruct (two_arguments _ Hargs) as [prog [input_file ->]]. cbn [nth].
  destruct (load_simulation_data open_read json_load input_file) as [data|] eqn:Hload.
  2: { split; [right; reflexivity|]. split; [discriminate|].
       intros [p [f [data [r [Heq [Hl _]]]]]]. injection Heq as <- <-.
       rewrite Hload in Hl. discriminate Hl. }
  rewrite (loaded_not_empty _ _ _ _ Hload). cbn [negb].
  destruct (analyze_flow_field data) as [r|] eqn:Hrun.
  - split; [left; reflexivity|]. split; [|reflexivity].
    intros _. exists prog, input_file, data, r. repeat split; assumption.
  - split; [right; reflexivity|]. split; [discriminate|].
    intros [p [f [data' [r [Heq [Hl Hr]]]]]]. injection Heq as <- <-.
    rewrite Hload in Hl. injection Hl as <-. rewrite Hrun in Hr. discriminate Hr.
Qed.

(** X9: when [main] exits with status 1 nothing has been drawn: the world
    is the one it started in, so no chart is written on a wrong command
    line, a document that does not load or a reduction that fails. *)
Theorem main_failure_draws_nothing (argv : list string) (w : world) :
  fst (main world open_read json_load splitext_root draw argv w) = 1 -> snd (main world open_read json_load splitext_root draw argv w) = w.
Proof.
  unfold main.
  destruct (negb (Nat.eqb (List.length argv) 2)); [reflexivity|].
  destruct (load_simulation_data open_read json_load (nth 1 argv ""));
    [|reflexivity].
  destruct (negb (Py.truthy (JList l))); [reflexivity|].
  destruct (analyze_flow_field l); [|reflexivity].
  simpl. discriminate.
Qed.

(** X10: after a successful load and reduction [main] draws the four
    charts, velocity components, magnitude, trajectory and position
    components in this order, each under the input path without its
    extension followed by [_velocity.png], [_magnitude.png],
    [_trajectory.png] and [_position.png], and exits with status 0.  The
    trajectory is always among them (its guard on fewer than two positions
    cannot fire on a returned series), and a chart that fails stops
    neither the later ones nor the status 0. *)
Theorem main_success_draws_four
    (prog input_file : string) (data : list json) (r : ReducedSeries) (w : world) :
  load_simulation_data open_read json_load input_file = Some data ->
  analyze_flow_field data = Some r ->
  let base := splitext_root input_file in
  let w1 := snd (draw VelocityComponents r (base ++ "_velocity.png") w) in
  let w2 := snd (draw VelocityMagnitude r (base ++ "_magnitude.png") w1) in
  let w3 := snd (draw Trajectory r (base ++ "_trajectory.png") w2) in
  let w4 := snd (draw PositionComponents r (base ++ "_position.png") w3) in
  main world open_read json_load splitext_root draw [prog; input_file] w = (0, w4).
Proof.
  intros Hload Hrun. unfold main. cbn [List.length Nat.eqb negb nth].
  rewrite Hload, (loaded_not_empty _ _ _ _ Hload), Hrun. cbn [negb].
  destruct (analyze_flow_field_entries _ _ Hrun) as [_ [Hp [_ [Hn _]]]].
  unfold create_trajectory_plot.
  replace (Nat.ltb (List.length (positions r)) 2) with false; [reflexivity|].
  symmetry. apply Nat.ltb_ge. rewrite Hp, length_map. exact Hn.
Qed.

End MainProperties.

Lemma main_failure_draws_nothing_witness :
  snd (main drawn one_file parse_scenario root_of_run draw_failing
         ["script.py"; "missing.json"] []) = [] /\
  snd (main drawn one_file parse_scenario root_of_run draw_failing
         ["script.py"] []) = [].
Proof.
  split.
  - apply (main_failure_draws_nothing drawn one_file parse_scenario root_of_run
             draw_failing ["script.py"; "missing.json"] []).
    reflexivity.
  - apply (main_failure_draws_nothing drawn one_file parse_scenario root_of_run
             draw_failing ["script.py"] []).
    reflexivity.
Defined.

(** With every chart failing the status is 0 all the same. *)
Lemma main_success_draws_four_witness :
  main drawn one_file parse_scenario root_of_run draw_failing
    ["script.py"; "run.json"] [] =
  (0, [ (VelocityComponents, "run_velocity.png");
        (VelocityMagnitude, "run_magnitude.png");
        (Trajectory, "run_trajectory.png");
        (PositionComponents, "run_position.png") ]).
Proof.
  apply (main_success_draws_four drawn one_file parse_scenario root_of_run
           draw_failing "script.py" "run.json" scenario
           (mkSeries (Np.ArrInt64 [0%Z; 1%Z])
              [(PrimFloat.one, PrimFloat.zero, PrimFloat.zero);
               (PrimFloat.one, PrimFloat.zero, PrimFloat.zero)]
              [(PrimFloat.zero, PrimFloat.zero, PrimFloat.zero);
               (PrimFloat.one, PrimFloat.zero, PrimFloat.zero)])
           []);
    reflexivity.
Defined.
